(** * get_hdr_metadata.py: the conversion engine, embedded and verified

    A shallow embedding of [get_hdr_metadata.py]: the mapping tables, the
    rational items of the mastering-display metadata ([MDItem]), the records
    built from ffprobe's frame JSON and [parse_frame_data], followed by the
    properties of the specification.

    Conventions of the embedding.
    - Python [int] is [Z]; [float] is IEEE 754 binary64, taken from the
      Standard Library's [SpecFloat] (precision 53, [emax = 1024]).
    - [str] is [string]; a character is a code point below 256.
    - [dict] is [gmap]; a raised exception is the [Raise] case of [result].
    - [print] appends one entry to the standard output of [IO]. *)

From Stdlib Require Import ZArith Lia Bool Ascii.
From Stdlib Require Import Floats.SpecFloat.
From Stdlib Require Import Numbers.DecimalString Numbers.DecimalZ Numbers.DecimalPos.
From stdpp Require Import base option list strings gmap.

Local Open Scope Z_scope.

(** ** Exceptions and the two monads *)

Inductive pyexn :=
  | ValueError
  | IndexError
  | KeyError (key : string)
  | AttributeError
  | ZeroDivisionError
  | OverflowError.

Inductive result (A : Type) :=
  | Ok (a : A)
  | Raise (e : pyexn).
Arguments Ok {A} a.
Arguments Raise {A} e.

#[global] Instance result_ret : MRet result := @Ok.
#[global] Instance result_bind : MBind result := λ A B f m,
  match m with
  | Ok a => f a
  | Raise e => Raise e
  end.

Definition raised {A} (m : result A) : Prop :=
  match m with
  | Ok _ => False
  | Raise _ => True
  end.

(** ** Python strings and the [int] constructor *)

Module PyStr.

Definition NL : string := String "010" "".

  (** [s.split(sep)] for a separator of one character. *)
Fixpoint split (sep : ascii) (s : string) : list string :=
    match s with
    | EmptyString => [""]
    | String c s' =>
        if Ascii.eqb c sep then "" :: split sep s'
        else match split sep s' with
             | p :: ps => String c p :: ps
             | [] => [String c ""]
             end
    end.

  (** [needle in hay]. *)
Fixpoint contains (needle hay : string) : bool :=
    String.prefix needle hay ||
    match hay with
    | EmptyString => false
    | String _ hay' => contains needle hay'
    end.

  (** [str(n)] and the [{n}] field of an f-string, for an [int]. *)
Definition of_int (n : Z) : string := NilEmpty.string_of_int (Z.to_int n).

  (** The white space [int] skips around a literal: the ASCII white space
      and, above 127, NEL and the no-break space. *)
Definition is_space (c : ascii) : bool :=
    Ascii.is_space c || Ascii.eqb c "133" || Ascii.eqb c "160".

Definition is_digit (c : ascii) : bool :=
    match Ascii.is_nat c with
    | Some _ => true
    | None => false
    end.

Definition digit_value (c : ascii) : Z :=
    Z.of_nat (default 0%nat (Ascii.is_nat c)).

Fixpoint lstrip (s : string) : string :=
    match s with
    | String c s' => if is_space c then lstrip s' else s
    | EmptyString => ""
    end.

Fixpoint rstrip (s : string) : string :=
    match s with
    | EmptyString => ""
    | String c s' =>
        match rstrip s' with
        | EmptyString => if is_space c then "" else String c ""
        | r => String c r
        end
    end.

  (** The rest of a literal after a digit: digits, each optionally preceded
      by one underscore.  Returns the digits without the underscores. *)
Fixpoint digit_groups (s : string) : option string :=
    match s with
    | EmptyString => Some ""
    | String c s' =>
        if is_digit c then String c <$> digit_groups s'
        else if Ascii.eqb c "_" then
          match s' with
          | String d s'' => if is_digit d then String d <$> digit_groups s'' else None
          | EmptyString => None
          end
        else None
    end.

Definition literal_digits (s : string) : option string :=
    match s with
    | String c s' => if is_digit c then String c <$> digit_groups s' else None
    | EmptyString => None
    end.

Fixpoint digits_value (s : string) (acc : Z) : Z :=
    match s with
    | EmptyString => acc
    | String c s' => digits_value s' (10 * acc + digit_value c)
    end.

  (** [sys.get_int_max_str_digits()], at its default. *)
Definition int_max_str_digits : nat := 4300.

  (** [int(s)] for a [str], base 10. *)
Definition to_int (s : string) : result Z :=
    let body := rstrip (lstrip s) in
    let '(negative, body) :=
      match body with
      | String "-" b => (true, b)
      | String "+" b => (false, b)
      | _ => (false, body)
      end in
    match literal_digits body with
    | None => Raise ValueError
    | Some ds =>
        if decide (String.length ds ≤ int_max_str_digits)%nat
        then Ok (cond_Zopp negative (digits_value ds 0))
        else Raise ValueError
    end.

Fixpoint zeros (n : nat) : string :=
    match n with
    | O => ""
    | S n' => String "0" (zeros n')
    end.

  (** [s.zfill(width)] for a string without a sign. *)
Definition zfill (width : nat) (s : string) : string :=
    zeros (width - String.length s) +:+ s.

End PyStr.

(** ** Python floats *)

Module PyFloat.

Definition prec : Z := 53.
Definition emax : Z := 1024.

Abbreviation float := spec_float.

  (** The finite float with the value of a non-zero integer taken as the
      mantissa at exponent 0; an operand of [SFdiv], which rounds the exact
      quotient whatever the size of the mantissas. *)
Definition of_mantissa (z : Z) : float :=
    S754_finite (z <? 0) (Z.to_pos (Z.abs z)) 0.

  (** [a / b] on two [int]s ([long_true_divide]): the correctly rounded
      quotient; division by zero and a quotient beyond the float range
      raise. *)
Definition int_true_divide (a b : Z) : result float :=
    if b =? 0 then Raise ZeroDivisionError
    else if a =? 0 then Ok (S754_zero (b <? 0))
    else match SFdiv prec emax (of_mantissa a) (of_mantissa b) with
         | S754_infinity _ => Raise OverflowError
         | f => Ok f
         end.

  (** The conversion of the [int] operand of a mixed operation
      ([PyLong_AsDouble]): round to nearest, ties to even. *)
Definition of_int (z : Z) : result float :=
    match binary_normalize prec emax z 0 false with
    | S754_infinity _ => Raise OverflowError
    | f => Ok f
    end.

Definition mul (x y : float) : float := SFmul prec emax x y.

  (** [int * float]. *)
Definition int_mul (z : Z) (y : float) : result float :=
    x ← of_int z; Ok (mul x y).

  (** [int(x)]: truncation toward zero. *)
Definition to_int (x : float) : result Z :=
    match x with
    | S754_zero _ => Ok 0
    | S754_infinity _ => Raise OverflowError
    | S754_nan => Raise ValueError
    | S754_finite s m e =>
        Ok (cond_Zopp s
              match e with
              | Zneg p => Z.shiftr (Zpos m) (Zpos p)
              | _ => Z.shiftl (Zpos m) e
              end)
    end.

  (** The integer nearest to [n / d], ties to even, for [0 <= n], [0 < d]. *)
Definition div_half_even (n d : Z) : Z :=
    let q := n / d in
    match 2 * (n mod d) ?= d with
    | Lt => q
    | Eq => if Z.even q then q else q + 1
    | Gt => q + 1
    end.

  (** [|x| * 10^k] rounded to an integer: the digits [dtoa] produces in
      mode 3 for [k] places after the point. *)
Definition scaled_digits (k : Z) (m : positive) (e : Z) : Z :=
    match e with
    | Zneg p => div_half_even (Zpos m * 10 ^ k) (2 ^ Zpos p)
    | _ => Zpos m * 10 ^ k * 2 ^ e
    end.

  (** [round(x, ndigits)] for a small non-negative [ndigits]
      ([double_round]): the decimal with [ndigits] places nearest to [x],
      read back as a float. *)
Definition round (x : float) (ndigits : Z) : result float :=
    match x with
    | S754_finite s m e =>
        let n := scaled_digits ndigits m e in
        if n =? 0 then Ok (S754_zero s)
        else match SFdiv prec emax (S754_finite s (Z.to_pos n) 0)
                     (of_mantissa (10 ^ ndigits)) with
             | S754_infinity _ => Raise OverflowError
             | f => Ok f
             end
    | _ => Ok x
    end.

  (** [format(x, ".<k>f")]: the decimal with [k] places nearest to [x]. *)
Definition format_f (k : nat) (x : float) : string :=
    match x with
    | S754_zero s =>
        (if s then "-" else "") +:+ "0." +:+ PyStr.zeros k
    | S754_infinity s => if s then "-inf" else "inf"
    | S754_nan => "nan"
    | S754_finite s m e =>
        let n := scaled_digits (Z.of_nat k) m e in
        (if s then "-" else "") +:+ PyStr.of_int (n / 10 ^ Z.of_nat k) +:+ "." +:+
        PyStr.zfill k (PyStr.of_int (n mod 10 ^ Z.of_nat k))
    end.

End PyFloat.

(** ** Standard output *)

Record IO (A : Type) := MkIO { stdout : list string; outcome : result A }.
Arguments MkIO {A} stdout outcome.
Arguments stdout {A} _.
Arguments outcome {A} _.

#[global] Instance IO_ret : MRet IO := λ A a, MkIO [] (Ok a).
#[global] Instance IO_bind : MBind IO := λ A B f m,
  match outcome m with
  | Ok a => MkIO (stdout m ++ stdout (f a)) (outcome (f a))
  | Raise e => MkIO (stdout m) (Raise e)
  end.

Definition print (s : string) : IO unit := MkIO [s] (Ok tt).

(** A computation that prints nothing. *)
Definition lift {A} (r : result A) : IO A := MkIO [] r.

(** [for x in l: st = body(st, x)]. *)
Fixpoint for_each {A S} (body : S → A → IO S) (l : list A) (st : S) : IO S :=
  match l with
  | [] => mret st
  | x :: l' => st' ← body st x; for_each body l' st'
  end.

(** ** Values of the frame JSON *)

(** A member of a side-data object: ffprobe prints rationals and names as
    strings, light levels as numbers. *)
Inductive value :=
  | VStr (s : string)
  | VInt (n : Z).

#[global] Instance value_eq_dec : EqDecision value.
Proof. solve_decision. Defined.

(** The [{v}] field of an f-string. *)
Definition format_value (v : value) : string :=
  match v with
  | VStr s => s
  | VInt n => PyStr.of_int n
  end.

(** The frame object [json.loads] returns for ffprobe's
    [-show_entries frame=pix_fmt,color_space,color_primaries,color_transfer,side_data_list]:
    string members, and the array of side-data objects when the frame has
    one. *)
Record frame := {
  fields : gmap string string;
  side_data_list : option (list (gmap string value))
}.

(** [d[k]]. *)
Definition getitem {V} (d : gmap string V) (k : string) : result V :=
  match d !! k with
  | Some v => Ok v
  | None => Raise (KeyError k)
  end.

(** [l[i]]. *)
Definition index {V} (l : list V) (i : nat) : result V :=
  match l !! i with
  | Some v => Ok v
  | None => Raise IndexError
  end.

(** ** The mapping tables *)

Definition x265_valid_color_matrix : list string := [
  "gbr"; "bt709"; "unknown"; "reserved"; "fcc"; "bt470bg"; "smpte170m"; "smpte240m"; "ycgco";
  "bt2020nc"; "bt2020c"; "smpte2085"; "chroma-derived-nc"; "chroma-derived-c"; "ictcp"
].

Definition x265_color_matrix_mapping : gmap string string :=
  list_to_map [("bt2020_ncl", "bt2020nc"); ("bt2020_cl", "bt2020c")].

Definition libaom_valid_matrix_coefficients : list string := [
  "bt709"; "fcc73"; "bt470bg"; "bt601"; "smpte240"; "ycgco";
  "bt2020ncl"; "bt2020cl"; "smpte2085"; "chromncl"; "chromcl"; "ictcp"
].

Definition libaom_matrix_coefficients_mapping : gmap string string :=
  list_to_map [
    ("fcc", "fcc73");
    ("smpte240m", "smpte240");
    ("bt2020nc", "bt2020ncl");
    ("bt2020_ncl", "bt2020ncl");
    ("bt2020c", "bt2020cl");
    ("bt2020_cl", "bt2020cl");
    ("chroma-derived-nc", "chromncl");
    ("chroma-derived-c", "chromcl")
  ].

Definition libaom_get_matrix_coefficients (color_space : string) : option string :=
  if bool_decide (color_space ∈ libaom_valid_matrix_coefficients) then Some color_space
  else match libaom_matrix_coefficients_mapping !! color_space with
       | Some mc => Some mc
       | None => None
       end.

Definition libsvtav1_color_primaries_mapping : gmap string Z :=
  list_to_map [
    ("bt709", 1);
    ("bt470m", 4);
    ("bt470bg", 5);
    ("bt601", 6);
    ("smpte240", 7);
    ("film", 8);
    ("bt2020", 9);
    ("xyz", 10);
    ("smpte431", 11);
    ("smpte432", 12);
    ("ebu3213", 22)
  ].

Definition libsvtav1_get_cp_code (color_primaries : string) : Z :=
  default 2 (libsvtav1_color_primaries_mapping !! color_primaries).

Definition libsvtav1_transfer_characteristics_mapping : gmap string Z :=
  list_to_map [
    ("bt709", 1);
    ("bt470m", 4);
    ("bt470bg", 5);
    ("bt601", 6);
    ("smpte240", 7);
    ("linear", 8);
    ("log100", 9);
    ("log100-sqrt10", 10);
    ("iec61966", 11);
    ("bt1361", 12);
    ("srgb", 13);
    ("bt2020-10", 14);
    ("bt2020-12", 15);
    ("smpte2084", 16);
    ("smpte428", 17);
    ("hlg", 18)
  ].

Definition libsvtav1_get_tch_code (transfer_characteristics : string) : Z :=
  default 2 (libsvtav1_transfer_characteristics_mapping !! transfer_characteristics).

(** ** [class MDItem] *)

Module MDItem.

Record t := {
    raw_value : string;
    numerator : Z;
    denominator : Z;
    float_value : PyFloat.float
  }.

  (** [__init__]; [raw_val.split] exists on a [str] only. *)
Definition init (raw_val : value) : result t :=
    match raw_val with
    | VInt _ => Raise AttributeError
    | VStr raw =>
        let val_list := PyStr.split "/" raw in
        numerator ← index val_list 0 ≫= PyStr.to_int;
        denominator ← index val_list 1 ≫= PyStr.to_int;
        float_value ← PyFloat.int_true_divide numerator denominator;
        Ok {| raw_value := raw; numerator := numerator;
              denominator := denominator; float_value := float_value |}
    end.

Definition str (self : t) : string := raw_value self.

  (** [int(self.numerator * (denominator / self.denominator))] *)
Definition expand_to_ratio (self : t) (denominator_ : Z) : result Z :=
    ratio ← PyFloat.int_true_divide denominator_ (denominator self);
    product ← PyFloat.int_mul (numerator self) ratio;
    PyFloat.to_int product.

  (** [f"{round(self.float_value, 4):.4f}"], as the libsvtav1 renderings
      write it. *)
Definition round4 (self : t) : result string :=
    r ← PyFloat.round (float_value self) 4; Ok (PyFloat.format_f 4 r).

End MDItem.

(** ** [class MDItemColorXY] *)

Module MDItemColorXY.

Record t := {
    prefix : string;
    x_data : MDItem.t;
    y_data : MDItem.t
  }.

Definition init (side_data : gmap string value) (prefix : string) : result t :=
    x_data ← getitem side_data (prefix +:+ "_x") ≫= MDItem.init;
    y_data ← getitem side_data (prefix +:+ "_y") ≫= MDItem.init;
    Ok {| prefix := prefix; x_data := x_data; y_data := y_data |}.

Definition str (self : t) : string :=
    prefix self +:+ "_x: " +:+ MDItem.str (x_data self) +:+ PyStr.NL +:+
    prefix self +:+ "_y: " +:+ MDItem.str (y_data self).

Definition to_x265 (self : t) : result string :=
    x ← MDItem.expand_to_ratio (x_data self) 50000;
    y ← MDItem.expand_to_ratio (y_data self) 50000;
    Ok ("(" +:+ PyStr.of_int x +:+ "," +:+ PyStr.of_int y +:+ ")").

Definition to_libsvtav1 (self : t) : result string :=
    x ← MDItem.round4 (x_data self);
    y ← MDItem.round4 (y_data self);
    Ok ("(" +:+ x +:+ "," +:+ y +:+ ")").

End MDItemColorXY.

(** ** [class MasteringDisplayData] *)

Module MasteringDisplayData.

Record t := {
    red : MDItemColorXY.t;
    green : MDItemColorXY.t;
    blue : MDItemColorXY.t;
    white_point : MDItemColorXY.t;
    min_luminance : MDItem.t;
    max_luminance : MDItem.t
  }.

Definition init (side_data : gmap string value) : result t :=
    red ← MDItemColorXY.init side_data "red";
    green ← MDItemColorXY.init side_data "green";
    blue ← MDItemColorXY.init side_data "blue";
    white_point ← MDItemColorXY.init side_data "white_point";
    min_luminance ← getitem side_data "min_luminance" ≫= MDItem.init;
    max_luminance ← getitem side_data "max_luminance" ≫= MDItem.init;
    Ok {| red := red; green := green; blue := blue; white_point := white_point;
          min_luminance := min_luminance; max_luminance := max_luminance |}.

Definition str (self : t) : string :=
    MDItemColorXY.str (red self) +:+ PyStr.NL +:+
    MDItemColorXY.str (green self) +:+ PyStr.NL +:+
    MDItemColorXY.str (blue self) +:+ PyStr.NL +:+
    MDItemColorXY.str (white_point self) +:+ PyStr.NL +:+
    "min_luminance: " +:+ MDItem.str (min_luminance self) +:+ PyStr.NL +:+
    "max_luminance" +:+ MDItem.str (max_luminance self).

Definition to_x265_params (self : t) : result string :=
    g ← MDItemColorXY.to_x265 (green self);
    b ← MDItemColorXY.to_x265 (blue self);
    r ← MDItemColorXY.to_x265 (red self);
    wp ← MDItemColorXY.to_x265 (white_point self);
    lmax ← MDItem.expand_to_ratio (max_luminance self) 10000;
    lmin ← MDItem.expand_to_ratio (min_luminance self) 10000;
    Ok ("display=G" +:+ g +:+ "B" +:+ b +:+ "R" +:+ r +:+
        "WP" +:+ wp +:+
        "L(" +:+ PyStr.of_int lmax +:+ "," +:+ PyStr.of_int lmin +:+ ")").

Definition to_libsvtav1_params (self : t) : result string :=
    g ← MDItemColorXY.to_libsvtav1 (green self);
    b ← MDItemColorXY.to_libsvtav1 (blue self);
    r ← MDItemColorXY.to_libsvtav1 (red self);
    wp ← MDItemColorXY.to_libsvtav1 (white_point self);
    lmax ← MDItem.round4 (max_luminance self);
    lmin ← MDItem.round4 (min_luminance self);
    Ok ("mastering-display=G" +:+ g +:+ "B" +:+ b +:+
        "R" +:+ r +:+ "WP" +:+ wp +:+
        "L(" +:+ lmax +:+ "," +:+ lmin +:+ ")").

End MasteringDisplayData.

(** ** [class ContentLightLevelData] *)

Module ContentLightLevelData.

Record t := {
    max_content : value;
    max_average : value
  }.

Definition init (side_data : gmap string value) : result t :=
    max_content ← getitem side_data "max_content";
    max_average ← getitem side_data "max_average";
    Ok {| max_content := max_content; max_average := max_average |}.

Definition str (self : t) : string :=
    "max_content: " +:+ format_value (max_content self) +:+
    ", max_average " +:+ format_value (max_average self).

Definition to_x265_params (self : t) : string :=
    "max-cll=" +:+ format_value (max_content self) +:+ "," +:+
    format_value (max_average self).

Definition to_libsvtav1_params (self : t) : string :=
    "content-light=" +:+ format_value (max_content self) +:+ "," +:+
    format_value (max_average self).

End ContentLightLevelData.

(** ** [class ColorData] *)

Module ColorData.

Record t := {
    pix_fmt : string;
    color_space : string;
    color_primaries : string;
    color_transfer : string
  }.

Definition init (frame_data : frame) : result t :=
    pix_fmt ← getitem (fields frame_data) "pix_fmt";
    color_space ← getitem (fields frame_data) "color_space";
    color_primaries ← getitem (fields frame_data) "color_primaries";
    color_transfer ← getitem (fields frame_data) "color_transfer";
    Ok {| pix_fmt := pix_fmt; color_space := color_space;
          color_primaries := color_primaries; color_transfer := color_transfer |}.

Definition str (self : t) : string :=
    "pix_fmt: " +:+ pix_fmt self +:+ PyStr.NL +:+ "color_space: " +:+ color_space self +:+
    PyStr.NL +:+ "color_primaries: " +:+ color_primaries self +:+
    PyStr.NL +:+ "color_transfer: " +:+ color_transfer self.

Definition to_ffmpeg_options (self : t) : string :=
    "-pix_fmt " +:+ pix_fmt self +:+ " -colorspace " +:+ color_space self +:+ " " +:+
    "-color_trc " +:+ color_transfer self +:+ " -color_primaries " +:+ color_primaries self.

Definition to_x265_params (self : t) : string :=
    if bool_decide (color_space self ∈ x265_valid_color_matrix) then
      "colormatrix=" +:+ color_space self
    else match x265_color_matrix_mapping !! color_space self with
         | Some mapped => "colormatrix=" +:+ mapped
         | None => ""
         end.

Definition to_libaom_av1_params (self : t) : string :=
    let res := "color-primaries=" +:+ color_primaries self +:+
               ":transfer-characteristics=" +:+ color_transfer self in
    match libaom_get_matrix_coefficients (color_space self) with
    | Some mc => res +:+ ":matrix-coefficients=" +:+ mc
    | None => res
    end.

Definition to_libsvtav1_params (self : t) : string :=
    let res := "color-primaries=" +:+ PyStr.of_int (libsvtav1_get_cp_code (color_primaries self)) in
    let res := res +:+ ":transfer-characteristics=" +:+
               PyStr.of_int (libsvtav1_get_tch_code (color_transfer self)) in
    if PyStr.contains "bt2020" (color_space self) then res +:+ ":matrix-coefficients=9"
    else res.

End ColorData.

(** ** [parse_frame_data] *)

(** [repr] of a list of strings free of quotes, backslashes and control
    characters, as the names of [color_params] are. *)
Definition repr_names (l : list string) : string :=
  "[" +:+ String.concat ", " (map (λ x, "'" +:+ x +:+ "'") l) +:+ "]".

(** The three parameter strings the function builds and extends. *)
Record params := {
  x265_params : string;
  libaom_av1_params : string;
  libsvtav1_params : string
}.

Definition color_params : list string :=
  ["pix_fmt"; "color_space"; "color_primaries"; "color_transfer"].

Definition missing_params (frame_data : frame) : list string :=
  filter (λ x, fields frame_data !! x = None) color_params.

(** The body of [for side_data in side_data_list]. *)
Definition side_data_step (st : params) (side_data : gmap string value) : IO params :=
  side_data_type ← lift (getitem side_data "side_data_type");
  if decide (side_data_type = VStr "Mastering display metadata") then
    mastering_display_data ← lift (MasteringDisplayData.init side_data);
    x265 ← lift (MasteringDisplayData.to_x265_params mastering_display_data);
    let st := {| x265_params := x265_params st +:+ ":" +:+ x265;
                 libaom_av1_params := libaom_av1_params st;
                 libsvtav1_params := libsvtav1_params st |} in
    libsvtav1 ← lift (MasteringDisplayData.to_libsvtav1_params mastering_display_data);
    let st := {| x265_params := x265_params st;
                 libaom_av1_params := libaom_av1_params st;
                 libsvtav1_params := libsvtav1_params st +:+ ":" +:+ libsvtav1 |} in
    print "Mastering display metadata:";;
    print (MasteringDisplayData.str mastering_display_data);;
    print "";;
    mret st
  else if decide (side_data_type = VStr "Content light level metadata") then
    content_light_level_data ← lift (ContentLightLevelData.init side_data);
    let st := {| x265_params := x265_params st +:+ ":" +:+
                   ContentLightLevelData.to_x265_params content_light_level_data;
                 libaom_av1_params := libaom_av1_params st;
                 libsvtav1_params := libsvtav1_params st |} in
    let st := {| x265_params := x265_params st;
                 libaom_av1_params := libaom_av1_params st;
                 libsvtav1_params := libsvtav1_params st +:+ ":" +:+
                   ContentLightLevelData.to_libsvtav1_params content_light_level_data |} in
    print "Content light level metadata:";;
    print (ContentLightLevelData.str content_light_level_data);;
    print "";;
    mret st
  else mret st.

(** The closing report. *)
Definition report (color_data : ColorData.t) (st : params) : IO unit :=
  print (PyStr.NL +:+ "FFmpeg options: " +:+ ColorData.to_ffmpeg_options color_data +:+ PyStr.NL);;
  print ("x265 params: " +:+ x265_params st +:+ PyStr.NL);;
  print ("libsvtav1 params: " +:+ libsvtav1_params st +:+ PyStr.NL);;
  print ("libaom-av1 params: " +:+ libaom_av1_params st +:+ PyStr.NL);;
  print "Done!".

Definition parse_frame_data (frame_data : frame) : IO unit :=
  if decide (length (missing_params frame_data) ≠ 0%nat) then
    print ("Missing " +:+ repr_names (missing_params frame_data) +:+
           " parameters in frame metadata!");;
    print "Probably not an HDR stream!";;
    print "Exit!"
  else
    color_data ← lift (ColorData.init frame_data);
    print "Color Data:";;
    print (ColorData.str color_data);;
    print "";;
    let st := {| x265_params := ColorData.to_x265_params color_data;
                 libaom_av1_params := ColorData.to_libaom_av1_params color_data;
                 libsvtav1_params := ColorData.to_libsvtav1_params color_data |} in
    side_data_list ← lift (match side_data_list frame_data with
                           | Some l => Ok l
                           | None => Raise (KeyError "side_data_list")
                           end);
    st ← for_each side_data_step side_data_list st;
    report color_data st.

(** * Definitions the statements use *)

(** The not-HDR report. *)
Definition not_hdr_report (missing : list string) : list string :=
  ["Missing " +:+ repr_names missing +:+ " parameters in frame metadata!";
   "Probably not an HDR stream!";
   "Exit!"].

Definition header (color_data : ColorData.t) : list string :=
  ["Color Data:"; ColorData.str color_data; ""].

(** The fragments one entry of the list contributes to the x265 and the
    libsvtav1 strings: those of the record built from it when its tag is
    one of the two recognised ones, nothing otherwise. *)
Definition side_data_fragments (side_data : gmap string value) :
    result (option (string * string)) :=
  side_data_type ← getitem side_data "side_data_type";
  if decide (side_data_type = VStr "Mastering display metadata") then
    record ← MasteringDisplayData.init side_data;
    x265 ← MasteringDisplayData.to_x265_params record;
    libsvtav1 ← MasteringDisplayData.to_libsvtav1_params record;
    Ok (Some (x265, libsvtav1))
  else if decide (side_data_type = VStr "Content light level metadata") then
    record ← ContentLightLevelData.init side_data;
    Ok (Some (ContentLightLevelData.to_x265_params record,
              ContentLightLevelData.to_libsvtav1_params record))
  else Ok None.

(** Appending the fragments of one entry, each after a ":". *)
Definition extend (st : params) (fragments : option (string * string)) : params :=
  match fragments with
  | Some (x265, libsvtav1) =>
      {| x265_params := x265_params st +:+ ":" +:+ x265;
         libaom_av1_params := libaom_av1_params st;
         libsvtav1_params := libsvtav1_params st +:+ ":" +:+ libsvtav1 |}
  | None => st
  end.

(** The fragments of a whole list, in the order of the list. *)
Fixpoint appended (proj : string * string → string)
    (fragments : list (option (string * string))) : string :=
  match fragments with
  | [] => ""
  | Some f :: rest => ":" +:+ proj f +:+ appended proj rest
  | None :: rest => appended proj rest
  end.

(** The float whose value is the non-zero integer [z], for [|z| < 2^53]. *)
Definition exact_float (z : Z) : PyFloat.float :=
  S754_finite (z <? 0)
    (Z.to_pos (Z.abs z * 2 ^ (PyFloat.prec - Zdigits2 z))) (Zdigits2 z - PyFloat.prec).

(** The integer nearest to the rational [a / b], ties to even. *)
Definition round_half_even_div (a b : Z) : Z :=
  if b <? 0 then PyFloat.div_half_even (- a) (- b) else PyFloat.div_half_even a b.

(** The expansion as the specification words it:
    [round(numerator * target_denominator / denominator)], the rounding of
    the exact rational. *)
Definition spec_expand_to_ratio (self : MDItem.t) (target_denominator : Z) : Z :=
  round_half_even_div (MDItem.numerator self * target_denominator) (MDItem.denominator self).

(** Every character of [s] satisfies [P]. *)
Fixpoint chars (P : ascii → bool) (s : string) : bool :=
  match s with
  | EmptyString => true
  | String c s' => P c && chars P s'
  end.

Definition sign_or_digit (c : ascii) : bool := PyStr.is_digit c || Ascii.eqb c "-".

(** The failure condition as the specification words it: the string does
    not split into exactly two integer parts, or the denominator is zero. *)
Definition spec_malformed (s : string) : Prop :=
  ¬ ∃ n d nz dz,
      PyStr.split "/" s = [n; d] ∧ PyStr.to_int n = Ok nz ∧ PyStr.to_int d = Ok dz ∧ dz ≠ 0.

(** A zero or a finite float: neither an infinity nor a NaN. *)
Definition is_number (x : PyFloat.float) : Prop :=
  match x with
  | S754_zero _ | S754_finite _ _ _ => True
  | _ => False
  end.

(** The ten members a mastering-display block is read for, in the order
    [MasteringDisplayData.__init__] reads them. *)
Definition mastering_display_keys : list string :=
  ["red_x"; "red_y"; "green_x"; "green_y"; "blue_x"; "blue_y";
   "white_point_x"; "white_point_y"; "min_luminance"; "max_luminance"].

(** The item is a ratio simplified from [target]: its denominator divides
    [target] and the expanded numerator is below 2^53. *)
Definition simplified_from (target : Z) (item : MDItem.t) : Prop :=
  MDItem.denominator item ≠ 0 ∧
  Z.divide (MDItem.denominator item) target ∧
  Z.abs (MDItem.numerator item * (target / MDItem.denominator item)) < 2 ^ 53.

Definition expanded (target : Z) (item : MDItem.t) : Z :=
  MDItem.numerator item * (target / MDItem.denominator item).

(** A line of the closing report. *)
Definition is_report_line (line : string) : bool :=
  String.prefix (PyStr.NL +:+ "FFmpeg options: ") line ||
  String.prefix "x265 params: " line ||
  String.prefix "libsvtav1 params: " line ||
  String.prefix "libaom-av1 params: " line ||
  String.eqb line "Done!".

(** The keys whose absence [parse_frame_data] can meet after the
    validation. *)
Definition side_data_keys : list string :=
  "side_data_list" :: "side_data_type" :: mastering_display_keys ++
  ["max_content"; "max_average"].

Definition is_key_error (e : pyexn) : Prop :=
  match e with
  | KeyError _ => True
  | _ => False
  end.

(** ** Sample input *)

(** A mastering-display block as ffprobe prints it, red given as a
    simplified ratio. *)
Definition sample_mastering_display : gmap string value :=
  list_to_map [
    ("side_data_type", VStr "Mastering display metadata");
    ("red_x", VStr "17/25"); ("red_y", VStr "8/25");
    ("green_x", VStr "13250/50000"); ("green_y", VStr "34500/50000");
    ("blue_x", VStr "7500/50000"); ("blue_y", VStr "3000/50000");
    ("white_point_x", VStr "15635/50000"); ("white_point_y", VStr "16450/50000");
    ("min_luminance", VStr "50/10000"); ("max_luminance", VStr "10000000/10000")
  ].

Definition sample_content_light (max_content max_average : Z) : gmap string value :=
  list_to_map [
    ("side_data_type", VStr "Content light level metadata");
    ("max_content", VInt max_content); ("max_average", VInt max_average)
  ].

Definition sample_other_block : gmap string value :=
  list_to_map [("side_data_type", VStr "DOVI configuration record"); ("dv_profile", VInt 8)].

Definition sample_color_data : ColorData.t :=
  {| ColorData.pix_fmt := "yuv420p10le"; ColorData.color_space := "bt2020nc";
     ColorData.color_primaries := "bt2020"; ColorData.color_transfer := "smpte2084" |}.

Definition sample_frame (blocks : option (list (gmap string value))) : frame :=
  {| fields := list_to_map [("pix_fmt", "yuv420p10le"); ("color_space", "bt2020nc");
                            ("color_primaries", "bt2020"); ("color_transfer", "smpte2084")];
     side_data_list := blocks |}.

(** * Properties *)

(** ** The mapping tables and [ColorData] *)

Section ColorDataFacts.

Variables pix_fmt color_primaries color_transfer : string.

Local Abbreviation descriptor color_space :=
  {| ColorData.pix_fmt := pix_fmt; ColorData.color_space := color_space;
     ColorData.color_primaries := color_primaries;
     ColorData.color_transfer := color_transfer |}.

(** C5. For the colour space "bt2020_ncl", whatever the other three tags:
    the x265 fragment maps it to "bt2020nc", the libaom lookup to
    "bt2020ncl" (and the libaom fragment carries it), and the libsvtav1
    fragment ends in matrix-coefficients code 9, "bt2020" being a
    substring of the tag. *)
Theorem bt2020_ncl_mappings :
  ColorData.to_x265_params (descriptor "bt2020_ncl") = "colormatrix=bt2020nc" ∧
  libaom_get_matrix_coefficients "bt2020_ncl" = Some "bt2020ncl" ∧
  ColorData.to_libaom_av1_params (descriptor "bt2020_ncl") =
    ("color-primaries=" +:+ color_primaries +:+
     ":transfer-characteristics=" +:+ color_transfer) +:+
    ":matrix-coefficients=bt2020ncl" ∧
  PyStr.contains "bt2020" "bt2020_ncl" = true ∧
  ColorData.to_libsvtav1_params (descriptor "bt2020_ncl") =
    ("color-primaries=" +:+ PyStr.of_int (libsvtav1_get_cp_code color_primaries) +:+
     ":transfer-characteristics=" +:+
     PyStr.of_int (libsvtav1_get_tch_code color_transfer)) +:+
    ":matrix-coefficients=9".
Proof.
  repeat split; try reflexivity.
Qed.

(** C7. Resolution of the matrix coefficients for x265 and libaom, for any
    colour-space tag: a tag of the valid list is kept, otherwise a tag of
    the alias table is replaced by its alias, otherwise the field is left
    out: the x265 fragment is empty and the libaom fragment keeps only the
    primaries and the transfer.  The functions are total: nothing is
    raised. *)
Theorem matrix_coefficients_resolution (color_space : string) :
  let base := "color-primaries=" +:+ color_primaries +:+
              ":transfer-characteristics=" +:+ color_transfer in
  (color_space ∈ x265_valid_color_matrix ∧
     ColorData.to_x265_params (descriptor color_space) = "colormatrix=" +:+ color_space
   ∨ (color_space ∉ x265_valid_color_matrix) ∧
     (∃ alias, x265_color_matrix_mapping !! color_space = Some alias ∧
        ColorData.to_x265_params (descriptor color_space) = "colormatrix=" +:+ alias)
   ∨ (color_space ∉ x265_valid_color_matrix) ∧
     x265_color_matrix_mapping !! color_space = None ∧
     ColorData.to_x265_params (descriptor color_space) = "")
  ∧
  (color_space ∈ libaom_valid_matrix_coefficients ∧
     libaom_get_matrix_coefficients color_space = Some color_space ∧
     ColorData.to_libaom_av1_params (descriptor color_space) =
       base +:+ ":matrix-coefficients=" +:+ color_space
   ∨ (color_space ∉ libaom_valid_matrix_coefficients) ∧
     (∃ alias, libaom_matrix_coefficients_mapping !! color_space = Some alias ∧
        libaom_get_matrix_coefficients color_space = Some alias ∧
        ColorData.to_libaom_av1_params (descriptor color_space) =
          base +:+ ":matrix-coefficients=" +:+ alias)
   ∨ (color_space ∉ libaom_valid_matrix_coefficients) ∧
     libaom_matrix_coefficients_mapping !! color_space = None ∧
     libaom_get_matrix_coefficients color_space = None ∧
     ColorData.to_libaom_av1_params (descriptor color_space) = base).
Proof.
  cbv zeta. split.
  - unfold ColorData.to_x265_params. cbn [ColorData.color_space].
    case_bool_decide as Hin; [by left|right].
    destruct (x265_color_matrix_mapping !! color_space) as [alias|] eqn:Hm.
    + left. split; [done|]. by exists alias.
    + by right.
  - unfold ColorData.to_libaom_av1_params, libaom_get_matrix_coefficients.
    cbn [ColorData.color_space ColorData.color_primaries ColorData.color_transfer].
    case_bool_decide as Hin; [by left|right].
    destruct (libaom_matrix_coefficients_mapping !! color_space) as [alias|] eqn:Hm.
    + left. split; [done|]. by exists alias.
    + by right.
Qed.

End ColorDataFacts.

(** C6. The descriptor with colour space "unknown", primaries "bt709" and
    transfer "smpte2084": the x265 fragment is "colormatrix=unknown" and the
    libsvtav1 fragment is "color-primaries=1:transfer-characteristics=16",
    with no matrix-coefficients field. *)
Theorem unknown_bt709_smpte2084_fragments (pix_fmt : string) :
  let color_data :=
    {| ColorData.pix_fmt := pix_fmt; ColorData.color_space := "unknown";
       ColorData.color_primaries := "bt709";
       ColorData.color_transfer := "smpte2084" |} in
  ColorData.to_x265_params color_data = "colormatrix=unknown" ∧
  ColorData.to_libsvtav1_params color_data =
    "color-primaries=1:transfer-characteristics=16" ∧
  PyStr.contains "bt2020" "unknown" = false.
Proof.
  repeat split; reflexivity.
Qed.

(** ** The validation step of [parse_frame_data] *)

Lemma missing_params_spec (frame_data : frame) (k : string) :
  k ∈ missing_params frame_data ↔ k ∈ color_params ∧ fields frame_data !! k = None.
Proof.
  unfold missing_params. rewrite list_elem_of_filter. tauto.
Qed.

Lemma missing_params_nil (frame_data : frame) :
  missing_params frame_data = [] ↔ ∃ color_data, ColorData.init frame_data = Ok color_data.
Proof.
  unfold missing_params, color_params, ColorData.init, getitem.
  rewrite !filter_cons, filter_nil.
  destruct (fields frame_data !! "pix_fmt"), (fields frame_data !! "color_space"),
    (fields frame_data !! "color_primaries"), (fields frame_data !! "color_transfer");
    repeat case_decide; cbn; split; try done; eauto; intros [? ?]; done.
Qed.

Lemma parse_frame_data_missing (frame_data : frame) :
  missing_params frame_data ≠ [] →
  parse_frame_data frame_data =
    MkIO (not_hdr_report (missing_params frame_data)) (Ok ()).
Proof.
  intros Hne. unfold parse_frame_data.
  case_decide as Hlen; [reflexivity|].
  destruct (missing_params frame_data); [done|]. cbn in Hlen. lia.
Qed.

(** What follows the validation when the four fields are there. *)
Lemma parse_frame_data_present (frame_data : frame) (color_data : ColorData.t) :
  ColorData.init frame_data = Ok color_data →
  parse_frame_data frame_data =
    (print "Color Data:";;
     print (ColorData.str color_data);;
     print "";;
     side_data_list ← lift (match side_data_list frame_data with
                            | Some l => Ok l
                            | None => Raise (KeyError "side_data_list")
                            end);
     st ← for_each side_data_step side_data_list
            {| x265_params := ColorData.to_x265_params color_data;
               libaom_av1_params := ColorData.to_libaom_av1_params color_data;
               libsvtav1_params := ColorData.to_libsvtav1_params color_data |};
     report color_data st).
Proof.
  intros Hinit. unfold parse_frame_data.
  case_decide as Hlen.
  - exfalso. apply Hlen.
    assert (missing_params frame_data = []) as ->; [|done].
    apply missing_params_nil. eauto.
  - rewrite Hinit. reflexivity.
Qed.

(** C3. A frame descriptor that lacks one of pix_fmt, color_space,
    color_primaries, color_transfer ends in the not-HDR outcome: the function
    prints the missing fields and the two closing lines and returns; none of
    the parameter strings is printed, and the side-data list is not read,
    the run being the same whatever [side_data_list] holds. *)
Theorem missing_field_not_hdr (frame_data : frame) (k : string) :
  k ∈ color_params →
  fields frame_data !! k = None →
  k ∈ missing_params frame_data ∧
  parse_frame_data frame_data =
    MkIO (not_hdr_report (missing_params frame_data)) (Ok ()) ∧
  ∀ l, parse_frame_data {| fields := fields frame_data; side_data_list := l |} =
       parse_frame_data frame_data.
Proof.
  intros Hk Hnone.
  assert (k ∈ missing_params frame_data) as Hin by (by apply missing_params_spec).
  assert (missing_params frame_data ≠ []) as Hne by (intros E; rewrite E in Hin; inversion Hin).
  split; [done|]. split; [by apply parse_frame_data_missing|].
  intros l. rewrite !parse_frame_data_missing; done.
Qed.

Lemma missing_field_not_hdr_witness :
  let frame_data :=
    {| fields := list_to_map [("pix_fmt", "yuv420p10le"); ("color_space", "bt2020nc");
                              ("color_primaries", "bt2020")];
       side_data_list := Some [] |} in
  parse_frame_data frame_data =
    MkIO ["Missing ['color_transfer'] parameters in frame metadata!";
          "Probably not an HDR stream!"; "Exit!"] (Ok ()).
Proof.
  intros frame_data.
  pose proof (missing_field_not_hdr frame_data "color_transfer") as H.
  destruct H as (_ & H & _).
  - unfold color_params. set_solver.
  - reflexivity.
  - rewrite H. reflexivity.
Defined.

(** C9. A frame descriptor with the four colour fields and no
    [side_data_list]: the validation passes (it checks the four fields
    only), the colour data are printed, and the lookup of [side_data_list]
    raises [KeyError]; the not-HDR report is not printed. *)
Theorem missing_side_data_list_key_error (frame_data : frame) :
  (∀ k, k ∈ color_params → is_Some (fields frame_data !! k)) →
  side_data_list frame_data = None →
  missing_params frame_data = [] ∧
  ∃ color_data,
    ColorData.init frame_data = Ok color_data ∧
    parse_frame_data frame_data =
      MkIO ["Color Data:"; ColorData.str color_data; ""]
           (Raise (KeyError "side_data_list")).
Proof.
  intros Hall Hnone.
  assert (missing_params frame_data = []) as Hnil.
  { destruct (missing_params frame_data) as [|k ks] eqn:E; [done|].
    assert (k ∈ missing_params frame_data) as Hin by (rewrite E; left).
    apply missing_params_spec in Hin as [Hk Hlook].
    destruct (Hall k Hk) as [v Hv]. congruence. }
  split; [done|].
  destruct (proj1 (missing_params_nil frame_data) Hnil) as [color_data Hinit].
  exists color_data. split; [done|].
  rewrite (parse_frame_data_present _ _ Hinit), Hnone. reflexivity.
Qed.

Lemma missing_side_data_list_key_error_witness :
  let frame_data :=
    {| fields := list_to_map [("pix_fmt", "yuv420p10le"); ("color_space", "bt2020nc");
                              ("color_primaries", "bt2020"); ("color_transfer", "smpte2084")];
       side_data_list := None |} in
  outcome (parse_frame_data frame_data) = Raise (KeyError "side_data_list").
Proof.
  intros frame_data.
  destruct (missing_side_data_list_key_error frame_data) as (_ & cd & _ & ->).
  - intros k Hk. unfold color_params in Hk.
    repeat (apply elem_of_cons in Hk as [->|Hk]; [by eexists|]).
    inversion Hk.
  - reflexivity.
  - reflexivity.
Defined.

(** ** The scan of the side-data list *)

Lemma append_cons (x : ascii) (a b : string) : String x a +:+ b = String x (a +:+ b).
Proof. reflexivity. Qed.

Lemma append_assoc (a b c : string) : (a +:+ b) +:+ c = a +:+ b +:+ c.
Proof. induction a as [|x a IH]; [done|]. by rewrite !append_cons, IH. Qed.

Lemma append_empty_r (a : string) : a +:+ "" = a.
Proof. induction a as [|x a IH]; [done|]. by rewrite append_cons, IH. Qed.

Lemma outcome_bind {A B} (m : IO A) (f : A → IO B) :
  outcome (m ≫= f) = outcome m ≫= (λ a, outcome (f a)).
Proof. unfold mbind, IO_bind, result_bind. by destruct (outcome m). Qed.

Ltac case_result :=
  match goal with
  | |- context [match ?r with Ok _ => _ | Raise _ => _ end] =>
      lazymatch r with
      | context [match _ with Ok _ => _ | Raise _ => _ end] => fail
      | _ => destruct r eqn:?
      end
  end.

Lemma side_data_step_outcome (st : params) (side_data : gmap string value) :
  outcome (side_data_step st side_data) =
    (fragments ← side_data_fragments side_data; Ok (extend st fragments)).
Proof.
  unfold side_data_step, side_data_fragments.
  unfold mbind, IO_bind, result_bind, lift, mret, IO_ret, print; cbn.
  case_result; cbn; [|done].
  repeat case_decide; cbn; [| |done].
  - repeat (case_result; cbn; [|done]). done.
  - repeat (case_result; cbn; [|done]). done.
Qed.

Lemma for_each_outcome (l : list (gmap string value)) (st : params) :
  outcome (for_each side_data_step l st) =
    (fragments ← mapM side_data_fragments l; Ok (foldl extend st fragments)).
Proof.
  revert st. induction l as [|side_data l IH]; intros st; [done|].
  cbn [for_each mapM]. rewrite outcome_bind, side_data_step_outcome.
  destruct (side_data_fragments side_data) as [fr|e]; cbn; [|done].
  rewrite IH. by destruct (mapM side_data_fragments l).
Qed.

Lemma foldl_extend (st : params) (fragments : list (option (string * string))) :
  foldl extend st fragments =
    {| x265_params := x265_params st +:+ appended fst fragments;
       libaom_av1_params := libaom_av1_params st;
       libsvtav1_params := libsvtav1_params st +:+ appended snd fragments |}.
Proof.
  revert st. induction fragments as [|[[a c]|] rest IH]; intros st; cbn [foldl appended].
  - rewrite !append_empty_r. by destruct st.
  - rewrite IH. cbn. by rewrite !append_assoc.
  - apply IH.
Qed.

(** A run that passes the validation and finds the list: the header, what
    the scan prints, and the report when the scan completes. *)
Lemma parse_frame_data_run (frame_data : frame) (color_data : ColorData.t)
    (l : list (gmap string value)) :
  ColorData.init frame_data = Ok color_data →
  side_data_list frame_data = Some l →
  let scan := for_each side_data_step l
                {| x265_params := ColorData.to_x265_params color_data;
                   libaom_av1_params := ColorData.to_libaom_av1_params color_data;
                   libsvtav1_params := ColorData.to_libsvtav1_params color_data |} in
  parse_frame_data frame_data =
    match outcome scan with
    | Ok st => MkIO (header color_data ++ stdout scan ++ stdout (report color_data st)) (Ok ())
    | Raise e => MkIO (header color_data ++ stdout scan) (Raise e)
    end.
Proof.
  intros Hinit Hl scan.
  rewrite (parse_frame_data_present _ _ Hinit), Hl.
  unfold mbind, IO_bind, lift, print; cbn. fold scan. clearbody scan.
  destruct (outcome scan); reflexivity.
Qed.

Lemma mapM_Forall2_Ok {A B} (f : A → result B) (l : list A) (k : list B) :
  Forall2 (λ x y, f x = Ok y) l k → mapM f l = Ok k.
Proof.
  induction 1 as [|x y l k Hxy _ IH]; [done|].
  cbn [mapM]. rewrite Hxy. cbn. fold (mapM f l). by rewrite IH.
Qed.

(** C8. A side-data list every entry of which yields its fragments (or has
    an unrecognised tag): the x265 and the libsvtav1 strings of the report
    are the fragments of the colour data followed by the fragments of the
    entries, each after a ":", in the order of the list; entries with the
    same tag all contribute, and an entry with an unrecognised tag
    contributes nothing. *)
Theorem side_data_fragments_accumulate (frame_data : frame) (color_data : ColorData.t)
    (l : list (gmap string value)) (fragments : list (option (string * string))) :
  ColorData.init frame_data = Ok color_data →
  side_data_list frame_data = Some l →
  Forall2 (λ side_data fr, side_data_fragments side_data = Ok fr) l fragments →
  ∃ printed,
    parse_frame_data frame_data =
      MkIO (header color_data ++ printed ++
            stdout (report color_data
              {| x265_params :=
                   ColorData.to_x265_params color_data +:+ appended fst fragments;
                 libaom_av1_params := ColorData.to_libaom_av1_params color_data;
                 libsvtav1_params :=
                   ColorData.to_libsvtav1_params color_data +:+ appended snd fragments |}))
           (Ok ()).
Proof.
  intros Hinit Hl Hfr.
  rewrite (parse_frame_data_run _ _ _ Hinit Hl). cbv zeta.
  rewrite for_each_outcome, (mapM_Forall2_Ok _ _ _ Hfr). cbn.
  rewrite foldl_extend. cbn. eauto.
Qed.

Lemma side_data_fragments_accumulate_witness :
  ∃ printed,
    parse_frame_data
      (sample_frame (Some [sample_content_light 1000 400; sample_other_block;
                           sample_content_light 1 2])) =
      MkIO (header sample_color_data ++ printed ++
            stdout (report sample_color_data
              {| x265_params := "colormatrix=bt2020nc:max-cll=1000,400:max-cll=1,2";
                 libaom_av1_params :=
                   "color-primaries=bt2020:transfer-characteristics=smpte2084:matrix-coefficients=bt2020ncl";
                 libsvtav1_params :=
                   "color-primaries=9:transfer-characteristics=16:matrix-coefficients=9:content-light=1000,400:content-light=1,2" |}))
           (Ok ()).
Proof.
  destruct (side_data_fragments_accumulate
              (sample_frame (Some [sample_content_light 1000 400; sample_other_block;
                                   sample_content_light 1 2]))
              sample_color_data
              [sample_content_light 1000 400; sample_other_block; sample_content_light 1 2]
              [Some ("max-cll=1000,400", "content-light=1000,400"); None;
               Some ("max-cll=1,2", "content-light=1,2")])
    as [printed H].
  - vm_compute. reflexivity.
  - reflexivity.
  - repeat constructor; vm_compute; reflexivity.
  - exists printed. rewrite H. reflexivity.
Defined.

(** C10. In a run that completes with a report, the libaom string printed
    is the libaom fragment of the colour data and the playback flags are
    those of the colour data: the scan of the side-data list changes
    neither, so both are the same for any other side-data list. *)
Theorem libaom_params_from_color_data (frame_data : frame) (color_data : ColorData.t) :
  ColorData.init frame_data = Ok color_data →
  outcome (parse_frame_data frame_data) = Ok () →
  let out := stdout (parse_frame_data frame_data) in
  rev out !! 1%nat =
    Some ("libaom-av1 params: " +:+ ColorData.to_libaom_av1_params color_data +:+ PyStr.NL) ∧
  rev out !! 4%nat =
    Some (PyStr.NL +:+ "FFmpeg options: " +:+ ColorData.to_ffmpeg_options color_data +:+
          PyStr.NL) ∧
  ∀ other,
    fields other = fields frame_data →
    outcome (parse_frame_data other) = Ok () →
    rev (stdout (parse_frame_data other)) !! 1%nat = rev out !! 1%nat ∧
    rev (stdout (parse_frame_data other)) !! 4%nat = rev out !! 4%nat.
Proof.
  assert (∀ fd cd, ColorData.init fd = Ok cd → outcome (parse_frame_data fd) = Ok () →
    rev (stdout (parse_frame_data fd)) !! 1%nat =
      Some ("libaom-av1 params: " +:+ ColorData.to_libaom_av1_params cd +:+ PyStr.NL) ∧
    rev (stdout (parse_frame_data fd)) !! 4%nat =
      Some (PyStr.NL +:+ "FFmpeg options: " +:+ ColorData.to_ffmpeg_options cd +:+
            PyStr.NL)) as Hlines.
  { intros fd cd Hinit Hok.
    destruct (side_data_list fd) as [l|] eqn:Hl.
    - rewrite (parse_frame_data_run _ _ _ Hinit Hl) in Hok |- *. cbv zeta in *.
      rewrite for_each_outcome in Hok |- *.
      destruct (mapM side_data_fragments l) as [frs|e]; cbn in Hok |- *; [|done].
      rewrite foldl_extend. cbn.
      rewrite rev_app_distr. done.
    - rewrite (parse_frame_data_present _ _ Hinit), Hl in Hok. done. }
  intros Hinit Hok out. destruct (Hlines _ _ Hinit Hok) as [H1 H4].
  split; [done|]. split; [done|].
  intros other Hfields Hok'.
  assert (ColorData.init other = Ok color_data) as Hinit'.
  { rewrite <- Hinit. unfold ColorData.init. by rewrite Hfields. }
  destruct (Hlines _ _ Hinit' Hok') as [H1' H4'].
  subst out. by rewrite H1, H4.
Qed.

Lemma libaom_params_from_color_data_witness :
  rev (stdout (parse_frame_data
                 (sample_frame (Some [sample_mastering_display; sample_content_light 1000 400]))))
    !! 1%nat =
  Some ("libaom-av1 params: color-primaries=bt2020:transfer-characteristics=smpte2084:matrix-coefficients=bt2020ncl"
        +:+ PyStr.NL).
Proof.
  destruct (libaom_params_from_color_data
              (sample_frame (Some [sample_mastering_display; sample_content_light 1000 400]))
              sample_color_data) as (H & _).
  - vm_compute. reflexivity.
  - vm_compute. reflexivity.
  - rewrite H. reflexivity.
Defined.


Example sample_mastering_display_x265 :
  MasteringDisplayData.init sample_mastering_display
    ≫= MasteringDisplayData.to_x265_params =
  Ok "display=G(13250,34500)B(7500,3000)R(34000,16000)WP(15635,16450)L(10000000,50)".
Proof. vm_compute. reflexivity. Qed.


(** ** Exact float operations on integers below 2^53 *)

Section Exact.
Import PyFloat.

Lemma digits2_pos_size (p : positive) : digits2_pos p = Pos.size p.
Proof. induction p as [p IH|p IH|]; simpl; congruence. Qed.

Lemma Zdigits2_log2 (z : Z) : 0 < z → Zdigits2 z = Z.log2 z + 1.
Proof.
  destruct z as [|p|p]; try lia. intros _. simpl.
  rewrite digits2_pos_size. destruct p; simpl; lia.
Qed.

Lemma Zdigits2_mul_pow2 (m n : Z) : 0 < m → 0 <= n → Zdigits2 (m * 2 ^ n) = Zdigits2 m + n.
Proof.
  intros Hm Hn. assert (0 < 2 ^ n) by (apply Z.pow_pos_nonneg; lia).
  rewrite !Zdigits2_log2 by nia.
  rewrite Z.log2_mul_pow2 by lia. lia.
Qed.

Lemma Zdigits2_bounds (z : Z) : 0 < z → 2 ^ (Zdigits2 z - 1) <= z < 2 ^ Zdigits2 z.
Proof.
  intros Hz. rewrite Zdigits2_log2 by done.
  replace (Z.log2 z + 1 - 1) with (Z.log2 z) by lia.
  pose proof (Z.log2_spec z Hz). replace (Z.log2 z + 1) with (Z.succ (Z.log2 z)) by lia. lia.
Qed.

Lemma Zdigits2_abs (z : Z) : Zdigits2 (Z.abs z) = Zdigits2 z.
Proof. by destruct z. Qed.

Lemma shr_1_double (m : Z) :
  shr_1 {| shr_m := 2 * m; shr_r := false; shr_s := false |} =
  {| shr_m := m; shr_r := false; shr_s := false |}.
Proof. by destruct m. Qed.

Lemma iter_shr_1_exact (p : positive) (m : Z) :
  SpecFloat.iter_pos shr_1 p {| shr_m := m * 2 ^ Zpos p; shr_r := false; shr_s := false |} =
  {| shr_m := m; shr_r := false; shr_s := false |}.
Proof.
  revert m. induction p as [p IH|p IH|]; intros m; cbn [SpecFloat.iter_pos].
  - replace (m * 2 ^ Z.pos p~1) with (2 * ((m * 2 ^ Z.pos p) * 2 ^ Z.pos p)).
    + by rewrite shr_1_double, !IH.
    + replace (Z.pos p~1) with (Z.pos p + Z.pos p + 1) by lia.
      rewrite !Z.pow_add_r by lia. change (2 ^ 1) with 2. ring.
  - replace (m * 2 ^ Z.pos p~0) with ((m * 2 ^ Z.pos p) * 2 ^ Z.pos p).
    + by rewrite !IH.
    + replace (Z.pos p~0) with (Z.pos p + Z.pos p) by lia.
      rewrite Z.pow_add_r by lia. ring.
  - replace (m * 2 ^ 1) with (2 * m) by lia. apply shr_1_double.
Qed.

Lemma shr_exact (m e n : Z) :
  0 <= n →
  shr {| shr_m := m * 2 ^ n; shr_r := false; shr_s := false |} e n =
  ({| shr_m := m; shr_r := false; shr_s := false |}, e + n).
Proof.
  intros Hn. destruct n as [|p|p]; [| |lia].
  - cbn [shr]. rewrite Z.pow_0_r, Z.mul_1_r, Z.add_0_r. done.
  - cbn [shr]. by rewrite iter_shr_1_exact.
Qed.

Lemma binary_round_aux_exact (sx : bool) (m e n : Z) :
  0 < m → 0 <= n →
  fexp prec emax (Zdigits2 m + (e + n)) = e + n →
  e + n <= emax - prec →
  binary_round_aux prec emax sx (m * 2 ^ n) e loc_Exact =
    S754_finite sx (Z.to_pos m) (e + n).
Proof.
  intros Hm Hn Hcanon Hmax. unfold binary_round_aux, shr_fexp.
  rewrite Zdigits2_mul_pow2 by done.
  replace (Zdigits2 m + n + e) with (Zdigits2 m + (e + n)) by lia.
  rewrite Hcanon. replace (e + n - e) with n by lia.
  cbn [shr_record_of_loc]. rewrite shr_exact by done.
  cbn [shr_m loc_of_shr_record round_nearest_even].
  rewrite Hcanon, Z.sub_diag. cbn [shr shr_m].
  destruct m as [|p|p]; try lia. cbn [Z.to_pos].
  by rewrite (proj2 (Z.leb_le _ _) Hmax).
Qed.

Lemma Zdigits2_small (z : Z) : z ≠ 0 → Z.abs z < 2 ^ prec → 1 <= Zdigits2 z <= prec.
Proof.
  intros Hz Hlt. rewrite <- Zdigits2_abs.
  pose proof (Zdigits2_bounds (Z.abs z) ltac:(lia)) as [Hlo Hhi].
  split.
  - destruct z; try done; simpl; lia.
  - destruct (Z_le_gt_dec (Zdigits2 (Z.abs z)) prec) as [|Hgt]; [done|].
    assert (2 ^ prec <= 2 ^ (Zdigits2 (Z.abs z) - 1)) by (apply Z.pow_le_mono_r; unfold prec in *; lia).
    lia.
Qed.

Lemma round_to_exact (sx : bool) (z mx ex : Z) :
  z ≠ 0 → Z.abs z < 2 ^ prec →
  ex <= Zdigits2 z - prec →
  mx = Z.abs z * 2 ^ (- ex) →
  binary_round_aux prec emax sx mx ex loc_Exact =
    S754_finite sx (Z.to_pos (Z.abs z * 2 ^ (prec - Zdigits2 z))) (Zdigits2 z - prec).
Proof.
  intros Hz Hlt Hex ->.
  pose proof (Zdigits2_small z Hz Hlt) as Hd.
  set (d := Zdigits2 z) in *.
  assert (0 < Z.abs z * 2 ^ (prec - d)) as Hpos.
  { apply Z.mul_pos_pos; [lia|]. apply Z.pow_pos_nonneg; lia. }
  replace (Z.abs z * 2 ^ (- ex)) with ((Z.abs z * 2 ^ (prec - d)) * 2 ^ (d - prec - ex)).
  2:{ rewrite <- Z.mul_assoc, <- Z.pow_add_r by lia. f_equal. f_equal. lia. }
  replace (d - prec) with (ex + (d - prec - ex)) at 2 by lia.
  apply binary_round_aux_exact; [done|lia| |unfold prec, emax in *; lia].
  rewrite Zdigits2_mul_pow2 by lia. rewrite Zdigits2_abs. fold d.
  unfold fexp, emin, prec, emax in *. lia.
Qed.

Lemma Zdigits2_le (a b : Z) : 0 < a → a <= b → Zdigits2 a <= Zdigits2 b.
Proof.
  intros Ha Hab. rewrite !Zdigits2_log2 by lia.
  pose proof (Z.log2_le_mono a b Hab). lia.
Qed.

Lemma Zdigits2_mul_le (a b : Z) : 0 < a → 0 < b → Zdigits2 (a * b) <= Zdigits2 a + Zdigits2 b.
Proof.
  intros Ha Hb.
  pose proof (Zdigits2_bounds a Ha) as [_ Ha'].
  pose proof (Zdigits2_bounds b Hb) as [_ Hb'].
  pose proof (Zdigits2_bounds (a * b) ltac:(nia)) as [Hab _].
  assert (0 < Zdigits2 a) by (destruct a; simpl; lia).
  assert (0 < Zdigits2 b) by (destruct b; simpl; lia).
  assert (a * b < 2 ^ (Zdigits2 a + Zdigits2 b)) as Hlt by (rewrite Z.pow_add_r by lia; nia).
  destruct (Z_le_gt_dec (Zdigits2 (a * b)) (Zdigits2 a + Zdigits2 b)) as [|Hgt]; [done|].
  assert (2 ^ (Zdigits2 a + Zdigits2 b) <= 2 ^ (Zdigits2 (a * b) - 1))
    by (apply Z.pow_le_mono_r; lia).
  lia.
Qed.

Lemma iter_xO_pow2 (d p : positive) : Zpos (Pos.iter xO p d) = Zpos p * 2 ^ Zpos d.
Proof.
  induction d as [|d IH] using Pos.peano_ind.
  - cbn. lia.
  - rewrite Pos.iter_succ, Pos2Z.inj_xO, IH, Pos2Z.inj_succ, Z.pow_succ_r by lia. ring.
Qed.

Lemma sign_mul (x y : Z) : x ≠ 0 → y ≠ 0 → xorb (x <? 0) (y <? 0) = (x * y <? 0).
Proof.
  intros Hx Hy.
  destruct (Z.ltb_spec x 0), (Z.ltb_spec y 0), (Z.ltb_spec (x * y) 0); cbn; try done; nia.
Qed.

Lemma of_int_exact (z : Z) :
  z ≠ 0 → Z.abs z < 2 ^ prec → of_int z = Ok (exact_float z).
Proof.
  intros Hz Hlt. pose proof (Zdigits2_small z Hz Hlt) as Hd.
  assert (∀ sx p, Zpos p = Z.abs z →
    binary_round prec emax sx p 0 =
      S754_finite sx (Z.to_pos (Z.abs z * 2 ^ (prec - Zdigits2 z))) (Zdigits2 z - prec)) as Hround.
  { intros sx p Hp. unfold binary_round, shl_align.
    change (Z.pos (digits2_pos p)) with (Zdigits2 (Z.pos p)).
    rewrite Hp, Zdigits2_abs.
    assert (fexp prec emax (Zdigits2 z + 0) = Zdigits2 z - prec) as ->
      by (unfold fexp, emin, prec, emax in *; lia).
    destruct (Zdigits2 z - prec - 0) as [|d|d] eqn:Hshift; [| lia |].
    - apply round_to_exact; [done|done|lia|]. rewrite Hp. cbn. lia.
    - apply round_to_exact; [done|done|lia|].
      rewrite iter_xO_pow2, Hp. f_equal. f_equal. lia. }
  unfold of_int, exact_float, binary_normalize.
  destruct z as [|p|p]; [done| |]; rewrite Hround by done; done.
Qed.

Lemma mul_exact (x y : Z) :
  x ≠ 0 → y ≠ 0 → Z.abs (x * y) < 2 ^ prec →
  mul (exact_float x) (exact_float y) = exact_float (x * y).
Proof.
  intros Hx Hy Hlt.
  assert (Z.abs x < 2 ^ prec ∧ Z.abs y < 2 ^ prec) as [Hxlt Hylt] by nia.
  pose proof (Zdigits2_small x Hx Hxlt) as Hdx.
  pose proof (Zdigits2_small y Hy Hylt) as Hdy.
  pose proof (Zdigits2_small (x * y) ltac:(nia) Hlt) as Hdxy.
  assert (Zdigits2 y <= Zdigits2 (x * y)) as Hmono.
  { rewrite <- (Zdigits2_abs y), <- (Zdigits2_abs (x * y)). apply Zdigits2_le; nia. }
  unfold mul, exact_float at 1 2, SFmul. rewrite sign_mul by done.
  apply round_to_exact; [nia|done|unfold prec in *; lia|].
  assert (0 < Z.abs x * 2 ^ (prec - Zdigits2 x)) as Hpx.
  { apply Z.mul_pos_pos; [lia|]. apply Z.pow_pos_nonneg; lia. }
  assert (0 < Z.abs y * 2 ^ (prec - Zdigits2 y)) as Hpy.
  { apply Z.mul_pos_pos; [lia|]. apply Z.pow_pos_nonneg; lia. }
  rewrite Pos2Z.inj_mul, !Z2Pos.id by done.
  replace (- (Zdigits2 x - prec + (Zdigits2 y - prec)))
    with ((prec - Zdigits2 x) + (prec - Zdigits2 y)) by lia.
  rewrite Z.pow_add_r, Z.abs_mul by lia. ring.
Qed.

Lemma div_exact (q b : Z) :
  q ≠ 0 → b ≠ 0 → Z.abs q < 2 ^ prec →
  int_true_divide (q * b) b = Ok (exact_float q).
Proof.
  intros Hq Hb Hlt. pose proof (Zdigits2_small q Hq Hlt) as Hdq.
  unfold int_true_divide.
  rewrite (proj2 (Z.eqb_neq b 0)) by done.
  rewrite (proj2 (Z.eqb_neq (q * b) 0)) by nia.
  unfold of_mantissa, SFdiv, SFdiv_core_binary.
  rewrite !Z2Pos.id by lia. rewrite !Zdigits2_abs.
  rewrite !Z.add_0_r, !Z.sub_0_r, Z.sub_0_l.
  set (e' := Z.min (fexp prec emax (Zdigits2 (q * b) - Zdigits2 b)) 0).
  assert (Zdigits2 (q * b) <= Zdigits2 q + Zdigits2 b) as Hdig.
  { rewrite <- (Zdigits2_abs (q * b)), <- (Zdigits2_abs q), <- (Zdigits2_abs b), Z.abs_mul.
    apply Zdigits2_mul_le; lia. }
  assert (e' <= Zdigits2 q - prec ∧ e' <= 0) as [He' He0].
  { subst e'. unfold fexp, emin, prec, emax in *. lia. }
  assert ((match - e' with
           | 0 => Z.abs (q * b)
           | Z.pos _ => Z.shiftl (Z.abs (q * b)) (- e')
           | Z.neg _ => 0
           end) = (Z.abs q * 2 ^ (- e')) * Z.abs b) as ->.
  { rewrite Z.abs_mul. destruct (- e') as [|s|s] eqn:Hs; [| |lia].
    - rewrite Z.pow_0_r. lia.
    - rewrite Z.shiftl_mul_pow2 by lia. ring. }
  pose proof (Z.div_eucl_eq (Z.abs q * 2 ^ (- e') * Z.abs b) (Z.abs b) ltac:(lia)) as Heucl.
  pose proof (Z.mod_mul (Z.abs q * 2 ^ (- e')) (Z.abs b) ltac:(lia)) as Hmod.
  pose proof (Z.div_mul (Z.abs q * 2 ^ (- e')) (Z.abs b) ltac:(lia)) as Hdiv.
  unfold Z.modulo, Z.div in Hmod, Hdiv.
  destruct (Z.div_eucl (Z.abs q * 2 ^ (- e') * Z.abs b) (Z.abs b)) as [q' r].
  cbn [fst snd] in *. subst q' r.
  assert (new_location (Z.abs b) 0 = loc_Exact) as ->.
  { unfold new_location, new_location_even, new_location_odd.
    by destruct (Z.even (Z.abs b)). }
  rewrite sign_mul by (try done; nia).
  replace (q * b * b <? 0) with (q <? 0).
  2:{ destruct (Z.ltb_spec q 0), (Z.ltb_spec (q * b * b) 0); try done; nia. }
  by rewrite (round_to_exact _ q) by done.
Qed.

Lemma to_int_exact (z : Z) :
  z ≠ 0 → Z.abs z < 2 ^ prec → to_int (exact_float z) = Ok z.
Proof.
  intros Hz Hlt. pose proof (Zdigits2_small z Hz Hlt) as Hd.
  unfold to_int, exact_float. f_equal.
  assert (0 < Z.abs z * 2 ^ (prec - Zdigits2 z)) as Hpos.
  { apply Z.mul_pos_pos; [lia|]. apply Z.pow_pos_nonneg; lia. }
  assert ((match Zdigits2 z - prec with
           | Z.neg p => Z.shiftr (Z.pos (Z.to_pos (Z.abs z * 2 ^ (prec - Zdigits2 z)))) (Z.pos p)
           | _ => Z.shiftl (Z.pos (Z.to_pos (Z.abs z * 2 ^ (prec - Zdigits2 z)))) (Zdigits2 z - prec)
           end) = Z.abs z) as ->.
  { rewrite Z2Pos.id by done.
    destruct (Zdigits2 z - prec) as [|p|p] eqn:He; [|lia|].
    - replace (prec - Zdigits2 z) with 0 by lia. rewrite Z.shiftl_0_r, Z.pow_0_r. lia.
    - rewrite Z.shiftr_div_pow2 by lia.
      replace (prec - Zdigits2 z) with (Z.pos p) by lia.
      apply Z.div_mul. apply Z.pow_nonzero; lia. }
  unfold cond_Zopp. destruct (Z.ltb_spec z 0); lia.
Qed.
End Exact.

(** ** [MDItem.expand_to_ratio] *)

Lemma init_denominator_nonzero (raw_val : value) (self : MDItem.t) :
  MDItem.init raw_val = Ok self → MDItem.denominator self ≠ 0.
Proof.
  unfold MDItem.init. destruct raw_val as [raw|]; [|done].
  unfold mbind, result_bind.
  repeat (case_result; [|done]).
  intros [= <-]. cbn.
  match goal with H : PyFloat.int_true_divide _ ?d = Ok _ |- _ =>
    unfold PyFloat.int_true_divide in H; destruct (Z.eqb_spec d 0); [done|] end.
  done.
Qed.

Lemma round_half_even_div_exact (q b : Z) : b ≠ 0 → round_half_even_div (q * b) b = q.
Proof.
  intros Hb. unfold round_half_even_div, PyFloat.div_half_even.
  destruct (Z.ltb_spec b 0).
  - replace (- (q * b)) with (q * - b) by lia.
    rewrite Z.mod_mul, Z.div_mul by lia.
    destruct (Z.compare_spec (2 * 0) (- b)); lia.
  - rewrite Z.mod_mul, Z.div_mul by lia.
    destruct (Z.compare_spec (2 * 0) b); lia.
Qed.

Lemma expand_to_ratio_exact (self : MDItem.t) (q : Z) :
  MDItem.denominator self ≠ 0 → q ≠ 0 → Z.abs q < 2 ^ 53 →
  Z.abs (MDItem.numerator self * q) < 2 ^ 53 →
  MDItem.expand_to_ratio self (q * MDItem.denominator self) = Ok (MDItem.numerator self * q).
Proof.
  intros Hden Hq Hqlt Hlt. unfold MDItem.expand_to_ratio.
  rewrite div_exact by done. cbn [mbind result_bind].
  unfold PyFloat.int_mul.
  destruct (Z.eq_dec (MDItem.numerator self) 0) as [->|Hn]; [done|].
  rewrite of_int_exact by (try done; change PyFloat.prec with 53; nia).
  cbn [mbind result_bind].
  rewrite mul_exact by done. by apply to_int_exact; [nia|].
Qed.

(** C1, as amended. For a Rational Value parsed from a string and a
    positive target below 2^53 that its denominator divides (a simplified
    ratio, which the method is written to expand back), with a result below
    2^53 in magnitude: [expand_to_ratio] returns the numerator times the
    quotient of the target by the denominator, which is the exact value of
    numerator * target / denominator and so its rounding. *)
Theorem expand_to_ratio_on_divisors (s : string) (self : MDItem.t) (target : Z) :
  MDItem.init (VStr s) = Ok self →
  0 < target < 2 ^ 53 →
  Z.divide (MDItem.denominator self) target →
  Z.abs (MDItem.numerator self * (target / MDItem.denominator self)) < 2 ^ 53 →
  MDItem.expand_to_ratio self target =
    Ok (MDItem.numerator self * (target / MDItem.denominator self)) ∧
  MDItem.numerator self * (target / MDItem.denominator self) =
    spec_expand_to_ratio self target.
Proof.
  intros Hinit Htarget [q ->] Hlt.
  pose proof (init_denominator_nonzero _ _ Hinit) as Hden.
  rewrite Z.div_mul in * by done.
  assert (q ≠ 0) by nia.
  assert (Z.abs q < 2 ^ 53) by nia.
  split.
  - by apply expand_to_ratio_exact.
  - unfold spec_expand_to_ratio. rewrite Z.mul_assoc.
    by rewrite round_half_even_div_exact.
Qed.

Lemma expand_to_ratio_on_divisors_witness :
  ∃ self, MDItem.init (VStr "17/25") = Ok self ∧
          MDItem.expand_to_ratio self 50000 = Ok 34000.
Proof.
  destruct (MDItem.init (VStr "17/25")) as [self|] eqn:Hinit;
    [|vm_compute in Hinit; discriminate].
  exists self. split; [done|].
  assert (MDItem.numerator self = 17 ∧ MDItem.denominator self = 25) as [Hn Hd].
  { vm_compute in Hinit. by injection Hinit as <-. }
  destruct (expand_to_ratio_on_divisors "17/25" self 50000 Hinit) as [-> _].
  - lia.
  - rewrite Hd. by exists 2000.
  - rewrite Hn, Hd. vm_compute. done.
  - rewrite Hn, Hd. done.
Defined.

(** C1, as stated, fails: [expand_to_ratio] truncates the float product
    [numerator * (target / denominator)]; for "1/3" and 50000 it returns
    16666 where the rounding of 50000/3 is 16667. *)
Lemma expand_to_ratio_not_rounded :
  ¬ (∀ (s : string) (self : MDItem.t) (target : Z),
       MDItem.init (VStr s) = Ok self → 0 < target →
       MDItem.expand_to_ratio self target = Ok (spec_expand_to_ratio self target)).
Proof.
  intros H.
  destruct (MDItem.init (VStr "1/3")) as [self|] eqn:Hinit;
    [|vm_compute in Hinit; discriminate].
  specialize (H "1/3" self 50000 Hinit ltac:(lia)).
  vm_compute in Hinit. injection Hinit as <-.
  vm_compute in H. discriminate H.
Qed.

(** The float product is inexact even when the exact value is an integer:
    "11/11" expands to 49999, not 50000. *)
Example expand_to_ratio_11_11 :
  (self ← MDItem.init (VStr "11/11"); MDItem.expand_to_ratio self 50000) = Ok 49999 ∧
  (self ← MDItem.init (VStr "1/3"); MDItem.expand_to_ratio self 50000) = Ok 16666 ∧
  round_half_even_div (1 * 50000) 3 = 16667.
Proof. repeat split; vm_compute; reflexivity. Qed.

(** ** The [int] constructor on the decimal writing of an integer *)

Lemma chars_impl (P Q : ascii → bool) (s : string) :
  (∀ c, P c = true → Q c = true) → chars P s = true → chars Q s = true.
Proof.
  intros HPQ. induction s as [|c s IH]; [done|]. cbn.
  rewrite !andb_true_iff. intros [? ?]. auto.
Qed.

Ltac ascii_cases c :=
  destruct c as [[] [] [] [] [] [] [] []]; try discriminate; try reflexivity.

Lemma sign_or_digit_not_space (c : ascii) : sign_or_digit c = true → negb (PyStr.is_space c) = true.
Proof. ascii_cases c. Qed.

Lemma sign_or_digit_not_slash (c : ascii) :
  sign_or_digit c = true → negb (Ascii.eqb c "/") = true.
Proof. ascii_cases c. Qed.

Lemma is_digit_sign_or_digit (c : ascii) : PyStr.is_digit c = true → sign_or_digit c = true.
Proof. unfold sign_or_digit. by intros ->. Qed.

Lemma lstrip_id (s : string) :
  chars (λ c, negb (PyStr.is_space c)) s = true → PyStr.lstrip s = s.
Proof.
  destruct s as [|c s]; [done|]. cbn. rewrite andb_true_iff, negb_true_iff.
  by intros [-> _].
Qed.

Lemma rstrip_id (s : string) :
  chars (λ c, negb (PyStr.is_space c)) s = true → PyStr.rstrip s = s.
Proof.
  induction s as [|c s IH]; [done|]. cbn. rewrite andb_true_iff, negb_true_iff.
  intros [Hc Hs]. rewrite (IH Hs), Hc. by destruct s.
Qed.

Lemma split_no_sep (sep : ascii) (s : string) :
  chars (λ c, negb (Ascii.eqb c sep)) s = true → PyStr.split sep s = [s].
Proof.
  induction s as [|c s IH]; [done|]. cbn. rewrite andb_true_iff, negb_true_iff.
  intros [Hc Hs]. by rewrite Hc, (IH Hs).
Qed.

Lemma split_app (sep : ascii) (a b : string) :
  chars (λ c, negb (Ascii.eqb c sep)) a = true →
  PyStr.split sep (a +:+ String sep b) = a :: PyStr.split sep b.
Proof.
  induction a as [|c a IH].
  - intros _. change ("" +:+ String sep b) with (String sep b).
    cbn [PyStr.split]. by rewrite Ascii.eqb_refl.
  - cbn [chars]. rewrite andb_true_iff, negb_true_iff. intros [Hc Ha].
    rewrite append_cons. cbn [PyStr.split]. by rewrite Hc, (IH Ha).
Qed.

Lemma string_of_uint_digits (d : Decimal.uint) :
  chars PyStr.is_digit (NilEmpty.string_of_uint d) = true.
Proof. induction d; cbn; done. Qed.

Lemma digits_value_acc (d : Decimal.uint) (acc : positive) :
  PyStr.digits_value (NilEmpty.string_of_uint d) (Zpos acc) = Zpos (Pos.of_uint_acc d acc).
Proof.
  revert acc. induction d as [|d IH|d IH|d IH|d IH|d IH|d IH|d IH|d IH|d IH|d IH];
    intros acc; [done|..];
    cbn [NilEmpty.string_of_uint PyStr.digits_value Pos.of_uint_acc];
    rewrite <- IH; f_equal; unfold PyStr.digit_value; simpl; lia.
Qed.

Lemma digits_value_of_uint (d : Decimal.uint) :
  PyStr.digits_value (NilEmpty.string_of_uint d) 0 = Z.of_N (Pos.of_uint d).
Proof.
  induction d as [|d IH|d IH|d IH|d IH|d IH|d IH|d IH|d IH|d IH|d IH]; [done|done|..];
    cbn [NilEmpty.string_of_uint PyStr.digits_value Pos.of_uint Z.of_N];
    rewrite <- digits_value_acc; f_equal.
Qed.

Lemma digit_groups_digits (s : string) :
  chars PyStr.is_digit s = true → PyStr.digit_groups s = Some s.
Proof.
  induction s as [|c s IH]; [done|]. cbn. rewrite andb_true_iff.
  intros [-> Hs]. by rewrite (IH Hs).
Qed.

Lemma literal_digits_digits (s : string) :
  s ≠ "" → chars PyStr.is_digit s = true → PyStr.literal_digits s = Some s.
Proof.
  destruct s as [|c s]; [done|]. intros _. cbn. rewrite andb_true_iff.
  intros [-> Hs]. by rewrite digit_groups_digits.
Qed.

Lemma to_int_digits (s : string) :
  s ≠ "" → chars PyStr.is_digit s = true →
  (String.length s ≤ PyStr.int_max_str_digits)%nat →
  PyStr.to_int s = Ok (PyStr.digits_value s 0) ∧
  PyStr.to_int (String "-" s) = Ok (- PyStr.digits_value s 0).
Proof.
  intros Hne Hdigits Hlen.
  assert (chars (λ c, negb (PyStr.is_space c)) s = true) as Hsp.
  { eapply chars_impl; [|done]. intros c Hc.
    by apply sign_or_digit_not_space, is_digit_sign_or_digit. }
  unfold PyStr.to_int. split.
  - rewrite lstrip_id, rstrip_id by done.
    destruct s as [|c s]; [done|].
    assert (PyStr.is_digit c = true) as Hc by (cbn in Hdigits; by destruct (PyStr.is_digit c)).
    replace (match String c s with
             | String "-" b => (true, b)
             | String "+" b => (false, b)
             | _ => (false, String c s)
             end) with (false, String c s) by (revert Hc; ascii_cases c).
    rewrite literal_digits_digits by done. by rewrite decide_True.
  - rewrite lstrip_id, rstrip_id by (cbn; done).
    rewrite literal_digits_digits by done. by rewrite decide_True.
Qed.

Lemma to_int_of_int (z : Z) :
  (String.length (PyStr.of_int (Z.abs z)) ≤ PyStr.int_max_str_digits)%nat →
  PyStr.to_int (PyStr.of_int z) = Ok z.
Proof.
  unfold PyStr.of_int. destruct z as [|p|p]; [done|..]; cbn [Z.abs Z.to_int NilEmpty.string_of_int];
    intros Hlen;
    (destruct (to_int_digits (NilEmpty.string_of_uint (Pos.to_uint p))) as [Hpos Hneg];
     [ destruct (Pos.to_uint p) eqn:E; try done; by apply Unsigned.to_uint_nonnil in E
     | apply string_of_uint_digits | done | ]).
  - rewrite Hpos, digits_value_of_uint, DecimalPos.Unsigned.of_to. done.
  - rewrite Hneg, digits_value_of_uint, DecimalPos.Unsigned.of_to. done.
Qed.

Lemma of_int_chars (z : Z) : chars sign_or_digit (PyStr.of_int z) = true.
Proof.
  unfold PyStr.of_int. destruct z as [|p|p]; [done|..]; cbn [Z.to_int NilEmpty.string_of_int].
  - eapply chars_impl; [apply is_digit_sign_or_digit|apply string_of_uint_digits].
  - cbn. eapply chars_impl; [apply is_digit_sign_or_digit|apply string_of_uint_digits].
Qed.

Lemma init_of_ints (n d : Z) (f : PyFloat.float) :
  (String.length (PyStr.of_int (Z.abs n)) ≤ PyStr.int_max_str_digits)%nat →
  (String.length (PyStr.of_int (Z.abs d)) ≤ PyStr.int_max_str_digits)%nat →
  PyFloat.int_true_divide n d = Ok f →
  MDItem.init (VStr (PyStr.of_int n +:+ "/" +:+ PyStr.of_int d)) =
    Ok {| MDItem.raw_value := PyStr.of_int n +:+ "/" +:+ PyStr.of_int d;
          MDItem.numerator := n; MDItem.denominator := d; MDItem.float_value := f |}.
Proof.
  intros Hn Hd Hf. unfold MDItem.init.
  change ("/" +:+ PyStr.of_int d) with (String "/" (PyStr.of_int d)).
  rewrite split_app, split_no_sep
    by (eapply chars_impl; [apply sign_or_digit_not_slash|apply of_int_chars]).
  cbn [index lookup list_lookup mbind result_bind].
  rewrite !to_int_of_int by done. cbn [mbind result_bind].
  by rewrite Hf.
Qed.

(** ** [MDItem.__init__] *)

Lemma int_true_divide_ok (n d : Z) :
  (∃ f, PyFloat.int_true_divide n d = Ok f) ↔
  d ≠ 0 ∧ PyFloat.int_true_divide n d ≠ Raise OverflowError.
Proof.
  unfold PyFloat.int_true_divide.
  destruct (Z.eqb_spec d 0) as [->|Hd].
  - split; [by intros [f ?]|by intros [? _]].
  - destruct (n =? 0); [split; eauto|].
    destruct (SFdiv _ _ _ _); split; eauto; try (by intros [? ?]); by intros [_ ?].
Qed.

(** C2, as amended. Construction from a string fails exactly when the
    string has no second "/"-separated part, or one of its first two parts
    is not an integer literal, or the denominator is zero, or the quotient
    is beyond the float range; parts after the second are not looked at.  A
    constructed value holds the string and the two integers.  Construction
    succeeds on the decimal writing "N/D" of any two integers (of at most
    4300 digits) whose quotient is a float. *)
Theorem rational_construction (s : string) :
  (raised (MDItem.init (VStr s)) ↔
     ¬ ∃ n d rest nz dz,
         PyStr.split "/" s = n :: d :: rest ∧
         PyStr.to_int n = Ok nz ∧ PyStr.to_int d = Ok dz ∧
         dz ≠ 0 ∧ PyFloat.int_true_divide nz dz ≠ Raise OverflowError) ∧
  (∀ self, MDItem.init (VStr s) = Ok self →
     MDItem.raw_value self = s ∧ MDItem.denominator self ≠ 0 ∧
     ∃ n d rest,
       PyStr.split "/" s = n :: d :: rest ∧
       PyStr.to_int n = Ok (MDItem.numerator self) ∧
       PyStr.to_int d = Ok (MDItem.denominator self)) ∧
  (∀ nz dz f,
     s = PyStr.of_int nz +:+ "/" +:+ PyStr.of_int dz →
     (String.length (PyStr.of_int (Z.abs nz)) ≤ PyStr.int_max_str_digits)%nat →
     (String.length (PyStr.of_int (Z.abs dz)) ≤ PyStr.int_max_str_digits)%nat →
     PyFloat.int_true_divide nz dz = Ok f →
     MDItem.init (VStr s) =
       Ok {| MDItem.raw_value := s; MDItem.numerator := nz;
             MDItem.denominator := dz; MDItem.float_value := f |}).
Proof.
  split; [|split].
  - unfold MDItem.init.
    destruct (PyStr.split "/" s) as [|n [|d rest]] eqn:Hsplit.
    + split; [intros _ (? & ? & ? & ? & ? & ? & _); done|done].
    + cbn. split; [intros _ (? & ? & ? & ? & ? & ? & _); done|].
      intros _. by destruct (PyStr.to_int n).
    + cbn [index lookup list_lookup mbind result_bind].
      destruct (PyStr.to_int n) as [nz|] eqn:Hn;
        [|split; [intros _ (? & ? & ? & ? & ? & [= <- <- <-] & ? & _); congruence|done]].
      cbn [mbind result_bind].
      destruct (PyStr.to_int d) as [dz|] eqn:Hd;
        [|split; [intros _ (? & ? & ? & ? & ? & [= <- <- <-] & ? & ? & _); congruence|done]].
      cbn [mbind result_bind].
      destruct (PyFloat.int_true_divide nz dz) as [f|e] eqn:Hf.
      * cbn. split; [done|]. intros Hno. exfalso. apply Hno.
        exists n, d, rest, nz, dz. repeat (split; [done|]).
        apply int_true_divide_ok. eexists. by rewrite <- Hf.
      * cbn. split; [|done]. intros _ (? & ? & ? & nz' & dz' & ? & Hn' & Hd' & Hdz & Hov).
        simplify_eq.
        destruct (proj2 (int_true_divide_ok nz' dz')) as [f Hf']; [done|]. congruence.
  - intros self Hinit.
    pose proof (init_denominator_nonzero _ _ Hinit) as Hden.
    unfold MDItem.init in Hinit.
    destruct (PyStr.split "/" s) as [|n [|d rest]]; cbn in Hinit; [done| |].
    + by destruct (PyStr.to_int n).
    + destruct (PyStr.to_int n) as [nz|] eqn:Hn; [|done].
      destruct (PyStr.to_int d) as [dz|] eqn:Hd; [|done]. cbn in Hinit.
      destruct (PyFloat.int_true_divide nz dz); [|done].
      injection Hinit as <-. split; [done|]. split; [done|]. by exists n, d, rest.
  - intros nz dz f -> Hn Hd Hf. by apply init_of_ints.
Qed.

Lemma rational_construction_witness :
  MDItem.init (VStr "17/25") =
    Ok {| MDItem.raw_value := "17/25"; MDItem.numerator := 17; MDItem.denominator := 25;
          MDItem.float_value := S754_finite false 6124895493223875 (-53) |}.
Proof.
  destruct (rational_construction "17/25") as (_ & _ & H).
  apply (H 17 25); [reflexivity|vm_compute; lia|vm_compute; lia|vm_compute; reflexivity].
Defined.

(** C2, as stated, fails: "1/2/3" does not split into exactly two parts,
    yet the construction succeeds, as 1/2. *)
Lemma three_parts_accepted :
  ¬ (∀ s, raised (MDItem.init (VStr s)) ↔ spec_malformed s).
Proof.
  intros H. apply (H "1/2/3").
  intros (n & d & nz & dz & Hsplit & _). vm_compute in Hsplit. discriminate.
Qed.

(** A well-formed "N/D" whose quotient is beyond the float range is
    refused as well. *)
Example overflow_refused :
  MDItem.init (VStr (PyStr.of_int (10 ^ 400) +:+ "/1")) = Raise OverflowError ∧
  MDItem.init (VStr "1/0") = Raise ZeroDivisionError ∧
  MDItem.init (VStr "12") = Raise IndexError ∧
  MDItem.init (VStr "a/2") = Raise ValueError.
Proof. repeat split; vm_compute; reflexivity. Qed.

(** * Further properties of the code *)

(** ** The tables: what the lookups can return *)

Ltac table_cases H :=
  apply elem_of_list_to_map_2 in H;
  repeat (apply elem_of_cons in H as [H|H]; [injection H as -> ->|]);
  [..|by apply elem_of_nil in H].

Lemma libaom_alias_valid (cs mc : string) :
  libaom_matrix_coefficients_mapping !! cs = Some mc →
  mc ∈ libaom_valid_matrix_coefficients ∧ cs ∉ libaom_valid_matrix_coefficients.
Proof.
  intros H. unfold libaom_matrix_coefficients_mapping in H. table_cases H;
    (split; [apply (bool_decide_unpack _); reflexivity
            |apply (bool_decide_unpack _); reflexivity]).
Qed.

Lemma x265_alias_valid (cs mc : string) :
  x265_color_matrix_mapping !! cs = Some mc →
  mc ∈ x265_valid_color_matrix ∧ cs ∉ x265_valid_color_matrix.
Proof.
  intros H. unfold x265_color_matrix_mapping in H. table_cases H;
    (split; [apply (bool_decide_unpack _); reflexivity
            |apply (bool_decide_unpack _); reflexivity]).
Qed.

(** X1. Whatever [libaom_get_matrix_coefficients] returns is a name of
    libaom's valid list, every alias of the table being one; so resolving a
    resolved name gives it back. *)
Theorem libaom_matrix_coefficients_valid (color_space mc : string) :
  libaom_get_matrix_coefficients color_space = Some mc →
  mc ∈ libaom_valid_matrix_coefficients ∧
  libaom_get_matrix_coefficients mc = Some mc.
Proof.
  intros H.
  assert (mc ∈ libaom_valid_matrix_coefficients) as Hin.
  { unfold libaom_get_matrix_coefficients in H. case_bool_decide as Hv.
    - by injection H as <-.
    - destruct (libaom_matrix_coefficients_mapping !! color_space) as [a|] eqn:Ha; [|done].
      injection H as <-. by apply (libaom_alias_valid color_space). }
  split; [done|]. unfold libaom_get_matrix_coefficients. by rewrite bool_decide_eq_true_2.
Qed.

Lemma libaom_matrix_coefficients_valid_witness :
  libaom_get_matrix_coefficients "bt2020nc" = Some "bt2020ncl" ∧
  "bt2020ncl" ∈ libaom_valid_matrix_coefficients ∧
  libaom_get_matrix_coefficients "bt2020ncl" = Some "bt2020ncl".
Proof.
  split; [reflexivity|].
  apply (libaom_matrix_coefficients_valid "bt2020nc"). reflexivity.
Defined.

(** X2. The x265 fragment of a colour descriptor is either empty or
    "colormatrix=" followed by a name of x265's valid list: an alias is
    always replaced by a valid name. *)
Theorem x265_colormatrix_valid (color_data : ColorData.t) :
  ColorData.to_x265_params color_data = "" ∨
  ∃ name, name ∈ x265_valid_color_matrix ∧
          ColorData.to_x265_params color_data = "colormatrix=" +:+ name.
Proof.
  unfold ColorData.to_x265_params. case_bool_decide as Hv.
  - right. eauto.
  - destruct (x265_color_matrix_mapping !! ColorData.color_space color_data) as [a|] eqn:Ha.
    + right. exists a. split; [|done]. by eapply x265_alias_valid.
    + by left.
Qed.

(** X3. No key of an alias table is itself a valid name, for x265 and
    for libaom: looking the alias table up first, then the valid list,
    gives the results the code gives with the tests in its own order. *)
Theorem resolution_order_immaterial (color_data : ColorData.t) :
  ColorData.to_x265_params color_data =
    match x265_color_matrix_mapping !! ColorData.color_space color_data with
    | Some alias => "colormatrix=" +:+ alias
    | None =>
        if bool_decide (ColorData.color_space color_data ∈ x265_valid_color_matrix)
        then "colormatrix=" +:+ ColorData.color_space color_data else ""
    end ∧
  libaom_get_matrix_coefficients (ColorData.color_space color_data) =
    match libaom_matrix_coefficients_mapping !! ColorData.color_space color_data with
    | Some alias => Some alias
    | None =>
        if bool_decide (ColorData.color_space color_data ∈ libaom_valid_matrix_coefficients)
        then Some (ColorData.color_space color_data) else None
    end.
Proof.
  split.
  - unfold ColorData.to_x265_params.
    destruct (x265_color_matrix_mapping !! ColorData.color_space color_data) as [a|] eqn:Ha;
      [|done].
    apply x265_alias_valid in Ha as [_ Hn]. by rewrite bool_decide_eq_false_2.
  - unfold libaom_get_matrix_coefficients.
    destruct (libaom_matrix_coefficients_mapping !! ColorData.color_space color_data)
      as [a|] eqn:Ha; [|done].
    apply libaom_alias_valid in Ha as [_ Hn]. by rewrite bool_decide_eq_false_2.
Qed.

(** X4. The libsvtav1 codes: the default 2 is returned exactly for the
    tags absent from the table, no entry of either table being 2; a
    primaries code is between 1 and 22 and a transfer code between 1 and
    18. *)
Theorem libsvtav1_codes (color_primaries color_transfer : string) :
  (libsvtav1_get_cp_code color_primaries = 2 ↔
     libsvtav1_color_primaries_mapping !! color_primaries = None) ∧
  1 <= libsvtav1_get_cp_code color_primaries <= 22 ∧
  (libsvtav1_get_tch_code color_transfer = 2 ↔
     libsvtav1_transfer_characteristics_mapping !! color_transfer = None) ∧
  1 <= libsvtav1_get_tch_code color_transfer <= 18.
Proof.
  assert (∀ z, libsvtav1_color_primaries_mapping !! color_primaries = Some z →
               z ≠ 2 ∧ 1 <= z <= 22) as Hcp.
  { intros z H. unfold libsvtav1_color_primaries_mapping in H. table_cases H; lia. }
  assert (∀ z, libsvtav1_transfer_characteristics_mapping !! color_transfer = Some z →
               z ≠ 2 ∧ 1 <= z <= 18) as Htch.
  { intros z H. unfold libsvtav1_transfer_characteristics_mapping in H. table_cases H; lia. }
  unfold libsvtav1_get_cp_code, libsvtav1_get_tch_code.
  destruct (libsvtav1_color_primaries_mapping !! color_primaries) as [a|];
    destruct (libsvtav1_transfer_characteristics_mapping !! color_transfer) as [b|]; cbn;
    try (destruct (Hcp a eq_refl)); try (destruct (Htch b eq_refl));
    repeat split; try done; try lia.
Qed.

(** ** Floats that are numbers, and [expand_to_ratio] outside the exact case *)

Lemma shr_1_nonneg (mrs : shr_record) : 0 <= shr_m mrs → 0 <= shr_m (shr_1 mrs).
Proof. destruct mrs as [[|[p|p|]|p] r s]; cbn; lia. Qed.

Lemma iter_shr_1_nonneg (p : positive) (mrs : shr_record) :
  0 <= shr_m mrs → 0 <= shr_m (SpecFloat.iter_pos shr_1 p mrs).
Proof.
  revert mrs. induction p as [p IH|p IH|]; intros mrs H; cbn [SpecFloat.iter_pos].
  - by apply IH, IH, shr_1_nonneg.
  - by apply IH, IH.
  - by apply shr_1_nonneg.
Qed.

Lemma shr_fexp_nonneg (m e : Z) (l : location) :
  0 <= m → 0 <= shr_m (fst (shr_fexp PyFloat.prec PyFloat.emax m e l)).
Proof.
  intros Hm. unfold shr_fexp, shr.
  assert (0 <= shr_m (shr_record_of_loc m l)) by (by destruct l as [|[]]).
  destruct (fexp _ _ _ - e); cbn [fst]; [done| |done].
  by apply iter_shr_1_nonneg.
Qed.

(** Rounding a non-negative mantissa gives a zero, a finite float or an
    infinity. *)
Lemma binary_round_aux_not_nan (sx : bool) (mx ex : Z) (lx : location) :
  0 <= mx → binary_round_aux PyFloat.prec PyFloat.emax sx mx ex lx ≠ S754_nan.
Proof.
  intros Hmx. unfold binary_round_aux.
  pose proof (shr_fexp_nonneg mx ex lx Hmx) as H1.
  destruct (shr_fexp _ _ mx ex lx) as [mrs' e']. cbn [fst] in H1.
  assert (0 <= round_nearest_even (shr_m mrs') (loc_of_shr_record mrs')) as H2.
  { unfold round_nearest_even. destruct (loc_of_shr_record mrs') as [|[]];
      try destruct (Z.even _); lia. }
  pose proof (shr_fexp_nonneg _ e' loc_Exact H2) as H3.
  destruct (shr_fexp _ _ _ e' loc_Exact) as [mrs'' e'']. cbn [fst] in H3.
  destruct (shr_m mrs''); [done| |lia]. by destruct (_ <=? _).
Qed.

Lemma int_true_divide_number (a b : Z) (f : PyFloat.float) :
  PyFloat.int_true_divide a b = Ok f → is_number f.
Proof.
  unfold PyFloat.int_true_divide.
  destruct (b =? 0); [done|]. destruct (a =? 0); [by intros [= <-]|].
  unfold PyFloat.of_mantissa, SFdiv.
  destruct (SFdiv_core_binary _ _ _ _ _ _) as [[mz ez] lz] eqn:Hcore.
  assert (0 <= mz) as Hmz.
  { unfold SFdiv_core_binary in Hcore.
    set (m' := match _ - _ - _ with 0 => _ | Z.pos _ => _ | Z.neg _ => _ end) in Hcore.
    assert (0 <= m') as Hm'.
    { subst m'. destruct (_ - _ - _); [lia| |lia]. apply Z.shiftl_nonneg. lia. }
    pose proof (Z.div_pos m' (Z.pos (Z.to_pos (Z.abs b))) Hm' ltac:(lia)) as Hq.
    unfold Z.div in Hq. destruct (Z.div_eucl m' _) as [q r]. cbn [fst] in Hq.
    by injection Hcore as <- _ _. }
  pose proof (binary_round_aux_not_nan (xorb (a <? 0) (b <? 0)) mz ez lz Hmz) as Hnan.
  destruct (binary_round_aux _ _ _ _ _ _); try done; by intros [= <-].
Qed.

Lemma of_int_number (z : Z) (f : PyFloat.float) : PyFloat.of_int z = Ok f → is_number f.
Proof.
  unfold PyFloat.of_int, binary_normalize, binary_round.
  destruct z as [|p|p]; [by intros [= <-]|..];
    destruct (shl_align _ _ _) as [mz ez];
    match goal with |- context [binary_round_aux ?a ?b ?sx ?m ?e ?l] =>
      pose proof (binary_round_aux_not_nan sx m e l ltac:(lia)) as Hnan;
      destruct (binary_round_aux a b sx m e l) end;
    try done; by intros [= <-].
Qed.

Lemma mul_not_nan (x y : PyFloat.float) :
  is_number x → is_number y → PyFloat.mul x y ≠ S754_nan.
Proof.
  destruct x, y; try done. intros _ _. unfold PyFloat.mul, SFmul.
  by apply binary_round_aux_not_nan.
Qed.

Lemma to_int_not_nan (x : PyFloat.float) :
  x ≠ S754_nan → (∃ z, PyFloat.to_int x = Ok z) ∨ PyFloat.to_int x = Raise OverflowError.
Proof. destruct x; cbn; eauto. done. Qed.

(** X7. With a non-zero denominator, [expand_to_ratio] returns an
    integer or raises [OverflowError]: the product is never a NaN, and no
    other exception is possible. *)
Theorem expand_to_ratio_errors (self : MDItem.t) (target : Z) :
  MDItem.denominator self ≠ 0 →
  (∃ z, MDItem.expand_to_ratio self target = Ok z) ∨
  MDItem.expand_to_ratio self target = Raise OverflowError.
Proof.
  intros Hden. unfold MDItem.expand_to_ratio.
  destruct (PyFloat.int_true_divide target (MDItem.denominator self)) as [ratio|e] eqn:Hratio.
  - cbn [mbind result_bind]. unfold PyFloat.int_mul.
    destruct (PyFloat.of_int (MDItem.numerator self)) as [x|e] eqn:Hx.
    + cbn [mbind result_bind]. apply to_int_not_nan, mul_not_nan.
      * by eapply of_int_number.
      * by eapply int_true_divide_number.
    + right. cbn. unfold PyFloat.of_int in Hx.
      destruct (binary_normalize _ _ _ _ _); congruence.
  - right. cbn. unfold PyFloat.int_true_divide in Hratio.
    rewrite (proj2 (Z.eqb_neq _ 0)) in Hratio by done.
    destruct (target =? 0); [done|].
    destruct (SFdiv _ _ _ _); congruence.
Qed.

Lemma expand_to_ratio_errors_witness :
  let self := {| MDItem.raw_value := "1/3"; MDItem.numerator := 1; MDItem.denominator := 3;
                 MDItem.float_value := S754_finite false 6004799503160661 (-54) |} in
  (∃ z, MDItem.expand_to_ratio self (10 ^ 400) = Ok z) ∨
  MDItem.expand_to_ratio self (10 ^ 400) = Raise OverflowError.
Proof.
  intros self. apply (expand_to_ratio_errors self (10 ^ 400)). cbn. lia.
Defined.

(** X6. An item with numerator 0 expands to 0 whenever the quotient of
    the target by the denominator can be formed; it raises what that
    division raises otherwise. *)
Theorem expand_to_ratio_zero_numerator (self : MDItem.t) (target : Z) :
  MDItem.numerator self = 0 →
  MDItem.expand_to_ratio self target =
    (PyFloat.int_true_divide target (MDItem.denominator self) ≫= λ _, Ok 0).
Proof.
  intros Hn. unfold MDItem.expand_to_ratio. rewrite Hn.
  destruct (PyFloat.int_true_divide target (MDItem.denominator self)) as [ratio|e] eqn:Hratio;
    [|done].
  apply int_true_divide_number in Hratio. by destruct ratio.
Qed.

Lemma expand_to_ratio_zero_numerator_witness :
  ∃ self, MDItem.init (VStr "0/7") = Ok self ∧ MDItem.expand_to_ratio self 50000 = Ok 0.
Proof.
  destruct (MDItem.init (VStr "0/7")) as [self|] eqn:Hinit;
    [|vm_compute in Hinit; discriminate].
  exists self. split; [done|].
  assert (MDItem.numerator self = 0 ∧ MDItem.denominator self = 7) as [Hn Hd].
  { vm_compute in Hinit. by injection Hinit as <-. }
  rewrite (expand_to_ratio_zero_numerator self 50000 Hn), Hd. reflexivity.
Defined.

(** X5. An item whose denominator already is the target (as ffprobe gives
    "13250/50000") expands to its numerator unchanged, for any non-zero
    denominator and a numerator below 2^53 in magnitude. *)
Theorem expand_to_own_denominator (self : MDItem.t) :
  MDItem.denominator self ≠ 0 →
  Z.abs (MDItem.numerator self) < 2 ^ 53 →
  MDItem.expand_to_ratio self (MDItem.denominator self) = Ok (MDItem.numerator self).
Proof.
  intros Hden Hlt.
  pose proof (expand_to_ratio_exact self 1 Hden ltac:(lia) ltac:(lia)) as H.
  rewrite Z.mul_1_l, Z.mul_1_r in H. by apply H.
Qed.

Lemma expand_to_own_denominator_witness :
  ∃ self, MDItem.init (VStr "13250/50000") = Ok self ∧
          MDItem.expand_to_ratio self 50000 = Ok 13250.
Proof.
  destruct (MDItem.init (VStr "13250/50000")) as [self|] eqn:Hinit;
    [|vm_compute in Hinit; discriminate].
  exists self. split; [done|].
  assert (MDItem.numerator self = 13250 ∧ MDItem.denominator self = 50000) as [Hn Hd].
  { vm_compute in Hinit. by injection Hinit as <-. }
  pose proof (expand_to_own_denominator self) as H. rewrite Hn, Hd in H.
  apply H; lia.
Defined.

(** X8. A constructed item keeps the string it was built from, its
    [float_value] is the float quotient of the stored numerator and
    denominator, it is a zero or a finite float (never an infinity or a
    NaN), and it is a zero, of the sign of the denominator, when the
    numerator is 0. *)
Theorem float_value_is_quotient (raw_val : value) (self : MDItem.t) :
  MDItem.init raw_val = Ok self →
  raw_val = VStr (MDItem.raw_value self) ∧
  PyFloat.int_true_divide (MDItem.numerator self) (MDItem.denominator self) =
    Ok (MDItem.float_value self) ∧
  is_number (MDItem.float_value self) ∧
  (MDItem.numerator self = 0 →
   MDItem.float_value self = S754_zero (MDItem.denominator self <? 0)).
Proof.
  unfold MDItem.init. destruct raw_val as [raw|]; [|done].
  destruct (index (PyStr.split "/" raw) 0 ≫= PyStr.to_int) as [n|]; [|done].
  destruct (index (PyStr.split "/" raw) 1 ≫= PyStr.to_int) as [d|]; [|done].
  cbn [mbind result_bind].
  destruct (PyFloat.int_true_divide n d) as [f|] eqn:Hf; [|done].
  intros [= <-]. cbn. split; [done|]. split; [done|].
  split; [by eapply int_true_divide_number|].
  intros ->. unfold PyFloat.int_true_divide in Hf.
  destruct (d =? 0); [done|]. by injection Hf as <-.
Qed.

Lemma float_value_is_quotient_witness :
  ∃ self, MDItem.init (VStr "0/-5") = Ok self ∧
          MDItem.float_value self = S754_zero true.
Proof.
  destruct (MDItem.init (VStr "0/-5")) as [self|] eqn:Hinit;
    [|vm_compute in Hinit; discriminate].
  exists self. split; [done|].
  destruct (float_value_is_quotient _ _ Hinit) as (_ & _ & _ & ->).
  - vm_compute in Hinit. by injection Hinit as <-.
  - vm_compute in Hinit. by injection Hinit as <-.
Defined.

(** ** The exceptions of [MDItem.__init__] *)

Lemma split_nonempty (sep : ascii) (s : string) : PyStr.split sep s ≠ [].
Proof.
  destruct s as [|c s]; [done|]. cbn.
  destruct (Ascii.eqb c sep); [done|]. by destruct (PyStr.split sep s).
Qed.

Lemma to_int_raises (s : string) (e : pyexn) : PyStr.to_int s = Raise e → e = ValueError.
Proof.
  unfold PyStr.to_int.
  destruct (match PyStr.rstrip (PyStr.lstrip s) with
            | String "-" b => (true, b)
            | String "+" b => (false, b)
            | _ => (false, PyStr.rstrip (PyStr.lstrip s))
            end) as [negative body].
  destruct (PyStr.literal_digits body); [|congruence].
  case_decide; congruence.
Qed.

Lemma int_true_divide_raises (n d : Z) (e : pyexn) :
  PyFloat.int_true_divide n d = Raise e →
  e = ZeroDivisionError ∧ d = 0 ∨ e = OverflowError ∧ d ≠ 0.
Proof.
  unfold PyFloat.int_true_divide. destruct (Z.eqb_spec d 0).
  - intros [= <-]. by left.
  - destruct (n =? 0); [done|]. destruct (SFdiv _ _ _ _); try done.
    intros [= <-]. by right.
Qed.

Lemma init_error_cases_aux (s : string) (e : pyexn) :
  MDItem.init (VStr s) = Raise e →
  e = ValueError ∨ e = IndexError ∨ e = ZeroDivisionError ∨ e = OverflowError.
Proof.
  unfold MDItem.init.
  destruct (PyStr.split "/" s) as [|n [|d rest]];
    cbn [index lookup list_lookup mbind result_bind].
  - intros [= <-]. auto.
  - destruct (PyStr.to_int n) as [nz|e'] eqn:Hn; cbn.
    + intros [= <-]. auto.
    + intros [= <-]. left. by eapply to_int_raises.
  - destruct (PyStr.to_int n) as [nz|e'] eqn:Hn; cbn [mbind result_bind];
      [|intros [= <-]; left; by eapply to_int_raises].
    destruct (PyStr.to_int d) as [dz|e'] eqn:Hd; cbn [mbind result_bind];
      [|intros [= <-]; left; by eapply to_int_raises].
    destruct (PyFloat.int_true_divide nz dz) as [f|e'] eqn:Hf; cbn; [done|].
    intros [= <-]. destruct (int_true_divide_raises _ _ _ Hf) as [[-> _]|[-> _]]; auto.
Qed.

Ltac error_cases :=
  split; [|split; [|split; [|split]]];
  [split; [intros ?|intros (? & ? & ? & ?)]; simplify_eq; eauto 10; try congruence
  |split; [intros ?|intros (? & ? & ? & [?|(? & ? & ? & ? & ? & ?)])]; simplify_eq; eauto 10; try congruence
  |split; [intros ?|intros (? & ? & ? & ? & ? & ? & ?)]; simplify_eq; eauto 10; try congruence
  |split; [intros ?|intros (? & ? & ? & ? & ? & ? & ? & ? & ?)]; simplify_eq; eauto 10; try congruence
  |intros ? ?; simplify_eq; set_solver].

(** X9. Which exception the construction of an item from a string raises:
    [IndexError] exactly when there is no "/" and the whole string is an
    integer literal; [ValueError] exactly when the first part, or else the
    second, is not an integer literal; [ZeroDivisionError] exactly when both
    parse and the denominator is 0; [OverflowError] exactly when the
    quotient is beyond the float range; and nothing else. *)
Theorem init_error_cases (s : string) :
  (MDItem.init (VStr s) = Raise IndexError ↔
     ∃ n nz, PyStr.split "/" s = [n] ∧ PyStr.to_int n = Ok nz) ∧
  (MDItem.init (VStr s) = Raise ValueError ↔
     ∃ n rest, PyStr.split "/" s = n :: rest ∧
       (PyStr.to_int n = Raise ValueError ∨
        ∃ nz d rest', PyStr.to_int n = Ok nz ∧ rest = d :: rest' ∧
                      PyStr.to_int d = Raise ValueError)) ∧
  (MDItem.init (VStr s) = Raise ZeroDivisionError ↔
     ∃ n d rest nz, PyStr.split "/" s = n :: d :: rest ∧
       PyStr.to_int n = Ok nz ∧ PyStr.to_int d = Ok 0) ∧
  (MDItem.init (VStr s) = Raise OverflowError ↔
     ∃ n d rest nz dz, PyStr.split "/" s = n :: d :: rest ∧
       PyStr.to_int n = Ok nz ∧ PyStr.to_int d = Ok dz ∧
       PyFloat.int_true_divide nz dz = Raise OverflowError) ∧
  (∀ e, MDItem.init (VStr s) = Raise e →
     e ∈ [ValueError; IndexError; ZeroDivisionError; OverflowError]).
Proof.
  unfold MDItem.init.
  pose proof (split_nonempty "/" s) as Hne.
  destruct (PyStr.split "/" s) as [|n [|d rest]]; [done|..];
    cbn [index lookup list_lookup mbind result_bind].
  - destruct (PyStr.to_int n) as [nz|e] eqn:Hn; cbn [mbind result_bind];
      [|pose proof (to_int_raises _ _ Hn) as ->]; error_cases.
  - destruct (PyStr.to_int n) as [nz|e] eqn:Hn; cbn [mbind result_bind];
      [|pose proof (to_int_raises _ _ Hn) as ->; error_cases].
    destruct (PyStr.to_int d) as [dz|e] eqn:Hd; cbn [mbind result_bind];
      [|pose proof (to_int_raises _ _ Hd) as ->; error_cases].
    destruct (PyFloat.int_true_divide nz dz) as [f|e] eqn:Hf; cbn [mbind result_bind];
      [assert (dz ≠ 0) by (apply (int_true_divide_ok nz dz); eauto)
      |destruct (int_true_divide_raises _ _ _ Hf) as [[-> ->]|[-> Hdz]]]; error_cases.
Qed.

(** ** [MasteringDisplayData]: construction and renderings *)

Lemma init_raw_value (raw_val : value) (self : MDItem.t) :
  MDItem.init raw_val = Ok self → raw_val = VStr (MDItem.raw_value self).
Proof.
  unfold MDItem.init. destruct raw_val as [raw|]; [|done].
  destruct (index (PyStr.split "/" raw) 0 ≫= PyStr.to_int); [|done].
  destruct (index (PyStr.split "/" raw) 1 ≫= PyStr.to_int); [|done].
  cbn [mbind result_bind]. destruct (PyFloat.int_true_divide _ _); [|done].
  by intros [= <-].
Qed.

Lemma getitem_init (side_data : gmap string value) (k : string) (item : MDItem.t) :
  getitem side_data k ≫= MDItem.init = Ok item →
  side_data !! k = Some (VStr (MDItem.raw_value item)).
Proof.
  unfold getitem. destruct (side_data !! k) as [v|]; [|done]. cbn.
  by intros ->%init_raw_value.
Qed.

Lemma color_xy_init (side_data : gmap string value) (prefix : string) (c : MDItemColorXY.t) :
  MDItemColorXY.init side_data prefix = Ok c →
  MDItemColorXY.prefix c = prefix ∧
  side_data !! (prefix +:+ "_x") = Some (VStr (MDItem.raw_value (MDItemColorXY.x_data c))) ∧
  side_data !! (prefix +:+ "_y") = Some (VStr (MDItem.raw_value (MDItemColorXY.y_data c))).
Proof.
  unfold MDItemColorXY.init.
  destruct (getitem side_data (prefix +:+ "_x") ≫= MDItem.init) as [x|] eqn:Hx; [|done].
  destruct (getitem side_data (prefix +:+ "_y") ≫= MDItem.init) as [y|] eqn:Hy; [|done].
  cbn [mbind result_bind]. intros [= <-]. cbn.
  split; [done|]. split; by apply getitem_init.
Qed.

(** X10. A constructed mastering-display record was read from string
    members: each of its ten items holds, as its raw value, the string the
    block has under the corresponding key, and the four points carry the
    prefixes red, green, blue and white_point. *)
Theorem mastering_display_from_fields (side_data : gmap string value)
    (record : MasteringDisplayData.t) :
  MasteringDisplayData.init side_data = Ok record →
  let raw_x c := VStr (MDItem.raw_value (MDItemColorXY.x_data c)) in
  let raw_y c := VStr (MDItem.raw_value (MDItemColorXY.y_data c)) in
  side_data !! "red_x" = Some (raw_x (MasteringDisplayData.red record)) ∧
  side_data !! "red_y" = Some (raw_y (MasteringDisplayData.red record)) ∧
  side_data !! "green_x" = Some (raw_x (MasteringDisplayData.green record)) ∧
  side_data !! "green_y" = Some (raw_y (MasteringDisplayData.green record)) ∧
  side_data !! "blue_x" = Some (raw_x (MasteringDisplayData.blue record)) ∧
  side_data !! "blue_y" = Some (raw_y (MasteringDisplayData.blue record)) ∧
  side_data !! "white_point_x" = Some (raw_x (MasteringDisplayData.white_point record)) ∧
  side_data !! "white_point_y" = Some (raw_y (MasteringDisplayData.white_point record)) ∧
  side_data !! "min_luminance" =
    Some (VStr (MDItem.raw_value (MasteringDisplayData.min_luminance record))) ∧
  side_data !! "max_luminance" =
    Some (VStr (MDItem.raw_value (MasteringDisplayData.max_luminance record))) ∧
  MDItemColorXY.prefix (MasteringDisplayData.red record) = "red" ∧
  MDItemColorXY.prefix (MasteringDisplayData.green record) = "green" ∧
  MDItemColorXY.prefix (MasteringDisplayData.blue record) = "blue" ∧
  MDItemColorXY.prefix (MasteringDisplayData.white_point record) = "white_point".
Proof.
  unfold MasteringDisplayData.init.
  destruct (MDItemColorXY.init side_data "red") as [r|] eqn:Hr; [|done].
  destruct (MDItemColorXY.init side_data "green") as [g|] eqn:Hg; [|done].
  destruct (MDItemColorXY.init side_data "blue") as [b|] eqn:Hb; [|done].
  destruct (MDItemColorXY.init side_data "white_point") as [w|] eqn:Hw; [|done].
  cbn [mbind result_bind].
  destruct (getitem side_data "min_luminance" ≫= MDItem.init) as [lmin|] eqn:Hmin; [|done].
  destruct (getitem side_data "max_luminance" ≫= MDItem.init) as [lmax|] eqn:Hmax; [|done].
  cbn [mbind result_bind]. intros [= <-]. cbn.
  apply color_xy_init in Hr as (? & ? & ?), Hg as (? & ? & ?),
    Hb as (? & ? & ?), Hw as (? & ? & ?).
  apply getitem_init in Hmin, Hmax. done.
Qed.

Lemma mastering_display_from_fields_witness :
  ∃ record, MasteringDisplayData.init sample_mastering_display = Ok record ∧
            sample_mastering_display !! "red_x" =
              Some (VStr (MDItem.raw_value
                            (MDItemColorXY.x_data (MasteringDisplayData.red record)))).
Proof.
  destruct (MasteringDisplayData.init sample_mastering_display) as [record|] eqn:Hinit;
    [|vm_compute in Hinit; discriminate].
  exists record. split; [done|].
  by destruct (mastering_display_from_fields _ _ Hinit) as (H & _).
Defined.

(** X11. A block that lacks any one of the ten members cannot be made
    into a mastering-display record: the construction raises. *)
Theorem mastering_display_missing_field (side_data : gmap string value) (k : string) :
  k ∈ mastering_display_keys →
  side_data !! k = None →
  raised (MasteringDisplayData.init side_data).
Proof.
  intros Hk Hnone.
  destruct (MasteringDisplayData.init side_data) as [record|e] eqn:Hinit; [|done].
  exfalso.
  (* the ten lookups of a constructed record *)
  assert (∀ k', k' ∈ mastering_display_keys → is_Some (side_data !! k')) as Hall.
  { clear k Hk Hnone. intros k' Hk'.
    unfold MasteringDisplayData.init in Hinit.
    destruct (MDItemColorXY.init side_data "red") as [r|] eqn:Hr; [|done].
    destruct (MDItemColorXY.init side_data "green") as [g|] eqn:Hg; [|done].
    destruct (MDItemColorXY.init side_data "blue") as [b|] eqn:Hb; [|done].
    destruct (MDItemColorXY.init side_data "white_point") as [w|] eqn:Hw; [|done].
    cbn [mbind result_bind] in Hinit.
    destruct (getitem side_data "min_luminance" ≫= MDItem.init) as [lmin|] eqn:Hmin; [|done].
    destruct (getitem side_data "max_luminance" ≫= MDItem.init) as [lmax|] eqn:Hmax; [|done].
    apply color_xy_init in Hr as (? & ? & ?), Hg as (? & ? & ?),
      Hb as (? & ? & ?), Hw as (? & ? & ?).
    apply getitem_init in Hmin, Hmax.
    unfold mastering_display_keys in Hk'.
    repeat (apply elem_of_cons in Hk' as [->|Hk']; [by eexists|]).
    by apply elem_of_nil in Hk'. }
  destruct (Hall k Hk) as [v Hv]. congruence.
Qed.

Lemma mastering_display_missing_field_witness :
  raised (MasteringDisplayData.init (delete "blue_y" sample_mastering_display)).
Proof.
  apply (mastering_display_missing_field _ "blue_y").
  - apply (bool_decide_unpack _). reflexivity.
  - apply lookup_delete_eq.
Defined.

Lemma expand_to_ratio_simplified (target : Z) (item : MDItem.t) :
  0 < target < 2 ^ 53 → simplified_from target item →
  MDItem.expand_to_ratio item target = Ok (expanded target item).
Proof.
  intros Htarget (Hden & [q Hq] & Hlt). unfold expanded in *. subst target.
  rewrite Z.div_mul in * by done.
  apply expand_to_ratio_exact; [done|nia|nia|done].
Qed.

(** X12. When the eight coordinates are ratios simplified from 50000
    and the two luminances ratios simplified from 10000, the x265 rendering
    is produced, and its numbers are the exactly expanded numerators. *)
Theorem x265_rendering_of_simplified_ratios (record : MasteringDisplayData.t) :
  let green := MasteringDisplayData.green record in
  let blue := MasteringDisplayData.blue record in
  let red := MasteringDisplayData.red record in
  let white_point := MasteringDisplayData.white_point record in
  Forall (simplified_from 50000)
    [MDItemColorXY.x_data green; MDItemColorXY.y_data green;
     MDItemColorXY.x_data blue; MDItemColorXY.y_data blue;
     MDItemColorXY.x_data red; MDItemColorXY.y_data red;
     MDItemColorXY.x_data white_point; MDItemColorXY.y_data white_point] →
  Forall (simplified_from 10000)
    [MasteringDisplayData.max_luminance record; MasteringDisplayData.min_luminance record] →
  MasteringDisplayData.to_x265_params record =
    Ok ("display=G(" +:+ PyStr.of_int (expanded 50000 (MDItemColorXY.x_data green)) +:+
        "," +:+ PyStr.of_int (expanded 50000 (MDItemColorXY.y_data green)) +:+
        ")B(" +:+ PyStr.of_int (expanded 50000 (MDItemColorXY.x_data blue)) +:+
        "," +:+ PyStr.of_int (expanded 50000 (MDItemColorXY.y_data blue)) +:+
        ")R(" +:+ PyStr.of_int (expanded 50000 (MDItemColorXY.x_data red)) +:+
        "," +:+ PyStr.of_int (expanded 50000 (MDItemColorXY.y_data red)) +:+
        ")WP(" +:+ PyStr.of_int (expanded 50000 (MDItemColorXY.x_data white_point)) +:+
        "," +:+ PyStr.of_int (expanded 50000 (MDItemColorXY.y_data white_point)) +:+
        ")L(" +:+ PyStr.of_int (expanded 10000 (MasteringDisplayData.max_luminance record)) +:+
        "," +:+ PyStr.of_int (expanded 10000 (MasteringDisplayData.min_luminance record)) +:+
        ")").
Proof.
  intros green blue red white_point Hxy Hlum.
  repeat match goal with
         | H : Forall _ (_ :: _) |- _ => apply Forall_cons in H as [? H]
         end.
  unfold MasteringDisplayData.to_x265_params, MDItemColorXY.to_x265.
  fold green blue red white_point.
  rewrite !(expand_to_ratio_simplified 50000) by (done || lia).
  rewrite !(expand_to_ratio_simplified 10000) by (done || lia).
  cbn [mbind result_bind]. rewrite !append_assoc. reflexivity.
Qed.

Lemma x265_rendering_of_simplified_ratios_witness :
  MasteringDisplayData.init sample_mastering_display ≫= MasteringDisplayData.to_x265_params =
  Ok "display=G(13250,34500)B(7500,3000)R(34000,16000)WP(15635,16450)L(10000000,50)".
Proof.
  destruct (MasteringDisplayData.init sample_mastering_display) as [record|] eqn:Hinit;
    [|vm_compute in Hinit; discriminate].
  vm_compute in Hinit. injection Hinit as <-. cbn [mbind result_bind].
  rewrite x265_rendering_of_simplified_ratios.
  - reflexivity.
  - repeat constructor; cbn; try lia;
      match goal with |- Z.divide ?d ?t => exists (t / d); reflexivity end.
  - repeat constructor; cbn; try lia;
      match goal with |- Z.divide ?d ?t => exists (t / d); reflexivity end.
Defined.


(** ** [parse_frame_data]: failing runs *)

Lemma IO_bind_assoc {A B C} (m : IO A) (f : A → IO B) (g : B → IO C) :
  (m ≫= f) ≫= g = m ≫= (λ a, f a ≫= g).
Proof.
  unfold mbind, IO_bind. destruct (outcome m) as [a|e]; cbn; [|done].
  destruct (outcome (f a)); cbn; by rewrite ?app_assoc.
Qed.

Lemma IO_bind_ext {A B} (m : IO A) (f g : A → IO B) :
  (∀ a, f a = g a) → m ≫= f = m ≫= g.
Proof. intros H. unfold mbind, IO_bind. destruct (outcome m); by rewrite ?H. Qed.

Lemma for_each_app {A S} (body : S → A → IO S) (l1 l2 : list A) (st : S) :
  for_each body (l1 ++ l2) st = for_each body l1 st ≫= for_each body l2.
Proof.
  revert st. induction l1 as [|x l1 IH]; intros st; cbn [for_each app].
  - unfold mbind, IO_bind, mret, IO_ret. cbn. by destruct (for_each body l2 st).
  - rewrite IO_bind_assoc. apply IO_bind_ext. intros st'. apply IH.
Qed.

Lemma side_data_step_raise (st : params) (side_data : gmap string value) (e : pyexn) :
  side_data_fragments side_data = Raise e →
  side_data_step st side_data = MkIO [] (Raise e).
Proof.
  unfold side_data_step, side_data_fragments.
  unfold mbind, IO_bind, result_bind, lift, mret, IO_ret, print; cbn.
  destruct (getitem side_data "side_data_type"); cbn; [|congruence].
  repeat case_decide; cbn; [| |done].
  - destruct (MasteringDisplayData.init side_data); cbn; [|congruence].
    destruct (MasteringDisplayData.to_x265_params _); cbn; [|congruence].
    destruct (MasteringDisplayData.to_libsvtav1_params _); cbn; [done|congruence].
  - destruct (ContentLightLevelData.init side_data); cbn; [done|congruence].
Qed.

Lemma md_str_head (side_data : gmap string value) (record : MasteringDisplayData.t) :
  MasteringDisplayData.init side_data = Ok record →
  is_report_line (MasteringDisplayData.str record) = false.
Proof.
  unfold MasteringDisplayData.init.
  destruct (MDItemColorXY.init side_data "red") as [r|] eqn:Hr; [|done].
  destruct (MDItemColorXY.init side_data "green") as [g|]; [|done].
  destruct (MDItemColorXY.init side_data "blue") as [b|]; [|done].
  destruct (MDItemColorXY.init side_data "white_point") as [w|]; [|done].
  cbn [mbind result_bind].
  destruct (getitem side_data "min_luminance" ≫= MDItem.init) as [lmin|]; [|done].
  destruct (getitem side_data "max_luminance" ≫= MDItem.init) as [lmax|]; [|done].
  cbn [mbind result_bind]. intros [= <-].
  apply color_xy_init in Hr as (Hp & _ & _).
  unfold MasteringDisplayData.str, MDItemColorXY.str. cbn [MasteringDisplayData.red].
  rewrite Hp. reflexivity.
Qed.

(** What one entry prints is none of the report's lines. *)
Lemma side_data_step_prints (st : params) (side_data : gmap string value) :
  Forall (λ line, is_report_line line = false) (stdout (side_data_step st side_data)).
Proof.
  unfold side_data_step.
  unfold mbind, IO_bind, result_bind, lift, mret, IO_ret, print; cbn.
  destruct (getitem side_data "side_data_type"); cbn; [|done].
  repeat case_decide; cbn; [| |done].
  - destruct (MasteringDisplayData.init side_data) as [record|] eqn:Hinit; cbn; [|done].
    destruct (MasteringDisplayData.to_x265_params _); cbn; [|done].
    destruct (MasteringDisplayData.to_libsvtav1_params _); cbn; [|done].
    repeat constructor. by eapply md_str_head.
  - destruct (ContentLightLevelData.init side_data); cbn; [|done].
    repeat constructor.
Qed.

Lemma for_each_prints (l : list (gmap string value)) (st : params) :
  Forall (λ line, is_report_line line = false) (stdout (for_each side_data_step l st)).
Proof.
  revert st. induction l as [|sd l IH]; intros st; cbn [for_each]; [constructor|].
  pose proof (side_data_step_prints st sd) as Hstep.
  unfold mbind, IO_bind. destruct (outcome (side_data_step st sd)); cbn; [|done].
  apply Forall_app. split; [done|apply IH].
Qed.

(** X14. A run of [parse_frame_data] that raises printed no line of the
    closing report: neither the playback flags, nor one of the three
    parameter strings, nor "Done!". *)
Theorem no_report_on_error (frame_data : frame) (e : pyexn) :
  outcome (parse_frame_data frame_data) = Raise e →
  Forall (λ line, is_report_line line = false) (stdout (parse_frame_data frame_data)).
Proof.
  intros Hraise.
  destruct (missing_params frame_data) as [|k ks] eqn:Hmissing.
  - apply missing_params_nil in Hmissing as [color_data Hinit].
    rewrite (parse_frame_data_present _ _ Hinit) in Hraise |- *.
    destruct (side_data_list frame_data) as [l|].
    + unfold mbind, IO_bind, lift, print in Hraise |- *; cbn in Hraise |- *.
      pose proof (for_each_prints l
        {| x265_params := ColorData.to_x265_params color_data;
           libaom_av1_params := ColorData.to_libaom_av1_params color_data;
           libsvtav1_params := ColorData.to_libsvtav1_params color_data |}) as Hscan.
      destruct (outcome (for_each side_data_step l _)); cbn in Hraise |- *; [done|].
      repeat (constructor; [reflexivity|]). done.
    + cbn. repeat constructor.
  - rewrite parse_frame_data_missing in Hraise by (by rewrite Hmissing). done.
Qed.

Lemma no_report_on_error_witness :
  Forall (λ line, is_report_line line = false)
    (stdout (parse_frame_data
               (sample_frame (Some [sample_content_light 1000 400;
                                    delete "red_y" sample_mastering_display])))).
Proof.
  apply (no_report_on_error _ (KeyError "red_y")). vm_compute. reflexivity.
Defined.

(** X15. When an entry of the side-data list fails after entries that
    succeed, the run raises that entry's exception, the failing entry
    prints nothing, the entries after it are not processed, and the output
    is what the run on the preceding entries alone prints, without the
    report. *)
Theorem failing_entry_aborts (frame_data : frame) (color_data : ColorData.t)
    (before after : list (gmap string value)) (side_data : gmap string value)
    (fragments : list (option (string * string))) (e : pyexn) :
  ColorData.init frame_data = Ok color_data →
  side_data_list frame_data = Some (before ++ side_data :: after) →
  Forall2 (λ sd fr, side_data_fragments sd = Ok fr) before fragments →
  side_data_fragments side_data = Raise e →
  outcome (parse_frame_data frame_data) = Raise e ∧
  parse_frame_data {| fields := fields frame_data; side_data_list := Some before |} =
    MkIO (stdout (parse_frame_data frame_data) ++
          stdout (report color_data
            {| x265_params := ColorData.to_x265_params color_data +:+ appended fst fragments;
               libaom_av1_params := ColorData.to_libaom_av1_params color_data;
               libsvtav1_params :=
                 ColorData.to_libsvtav1_params color_data +:+ appended snd fragments |}))
         (Ok ()).
Proof.
  intros Hinit Hl Hbefore Hfail.
  assert (ColorData.init {| fields := fields frame_data; side_data_list := Some before |} =
          Ok color_data) as Hinit' by done.
  set (st := {| x265_params := ColorData.to_x265_params color_data;
                libaom_av1_params := ColorData.to_libaom_av1_params color_data;
                libsvtav1_params := ColorData.to_libsvtav1_params color_data |}).
  pose proof (for_each_outcome before st) as Hout.
  rewrite (mapM_Forall2_Ok _ _ _ Hbefore) in Hout. cbn in Hout.
  rewrite foldl_extend in Hout. cbn [x265_params libaom_av1_params libsvtav1_params st] in Hout.
  assert (for_each side_data_step (before ++ side_data :: after) st =
          MkIO (stdout (for_each side_data_step before st)) (Raise e)) as Hfull.
  { rewrite for_each_app. cbn [for_each]. unfold mbind at 1, IO_bind at 1. rewrite Hout.
    rewrite (side_data_step_raise _ _ e) by done. cbn. by rewrite app_nil_r. }
  rewrite (parse_frame_data_run _ _ _ Hinit Hl).
  rewrite (parse_frame_data_run _ _ _ Hinit' eq_refl). cbv zeta. fold st.
  rewrite Hfull, Hout. cbn [outcome stdout]. split; [done|].
  by rewrite <- !app_assoc.
Qed.

Lemma failing_entry_aborts_witness :
  outcome (parse_frame_data
             (sample_frame (Some [sample_content_light 1000 400;
                                  delete "red_y" sample_mastering_display;
                                  sample_content_light 1 2]))) =
  Raise (KeyError "red_y").
Proof.
  apply (failing_entry_aborts _ sample_color_data [sample_content_light 1000 400]
           [sample_content_light 1 2] (delete "red_y" sample_mastering_display)
           [Some ("max-cll=1000,400", "content-light=1000,400")]).
  - vm_compute. reflexivity.
  - reflexivity.
  - repeat constructor.
  - vm_compute. reflexivity.
Defined.

(** ** Which keys a [KeyError] can name *)

Ltac bind_cases H :=
  unfold mbind, result_bind in H;
  repeat match type of H with
         | context [match ?r with Ok _ => _ | Raise _ => _ end] =>
             lazymatch r with
             | context [match _ with Ok _ => _ | Raise _ => _ end] => fail
             | _ => let E := fresh "E" in destruct r eqn:E
             end
         end;
  try discriminate H; try (injection H as <-).

Lemma init_not_key_error (raw_val : value) (e : pyexn) :
  MDItem.init raw_val = Raise e → ¬ is_key_error e.
Proof.
  destruct raw_val as [s|]; [|by intros [= <-] ?].
  intros He. destruct (init_error_cases_aux s e He) as [ -> | [ -> | [ -> | -> ] ] ]; by intros ?.
Qed.

Lemma getitem_key_error {V} (d : gmap string V) (k : string) (e : pyexn) :
  getitem d k = Raise e → e = KeyError k.
Proof. unfold getitem. destruct (d !! k); by intros [= <-]. Qed.

Lemma getitem_init_key_error (side_data : gmap string value) (k k' : string) :
  getitem side_data k ≫= MDItem.init = Raise (KeyError k') → k' = k.
Proof.
  intros H. unfold mbind, result_bind in H.
  destruct (getitem side_data k) as [v|e] eqn:Hget.
  - by apply init_not_key_error in H.
  - apply getitem_key_error in Hget. congruence.
Qed.

Lemma color_xy_key_error (side_data : gmap string value) (prefix k : string) :
  MDItemColorXY.init side_data prefix = Raise (KeyError k) →
  k = prefix +:+ "_x" ∨ k = prefix +:+ "_y".
Proof.
  unfold MDItemColorXY.init. intros H.
  destruct (getitem side_data (prefix +:+ "_x") ≫= MDItem.init) as [x|e] eqn:Hx.
  - destruct (getitem side_data (prefix +:+ "_y") ≫= MDItem.init) as [y|e] eqn:Hy; [done|].
    cbn in H. injection H as ->. right. by eapply getitem_init_key_error.
  - cbn in H. injection H as ->. left. by eapply getitem_init_key_error.
Qed.

Lemma mastering_display_key_error (side_data : gmap string value) (k : string) :
  MasteringDisplayData.init side_data = Raise (KeyError k) → k ∈ mastering_display_keys.
Proof.
  unfold MasteringDisplayData.init. intros H.
  destruct (MDItemColorXY.init side_data "red") as [r|e] eqn:Hr;
    [|cbn in H; injection H as ->; apply color_xy_key_error in Hr as [->| ->];
      apply (bool_decide_unpack _); reflexivity].
  destruct (MDItemColorXY.init side_data "green") as [g|e] eqn:Hg;
    [|cbn in H; injection H as ->; apply color_xy_key_error in Hg as [->| ->];
      apply (bool_decide_unpack _); reflexivity].
  destruct (MDItemColorXY.init side_data "blue") as [b|e] eqn:Hb;
    [|cbn in H; injection H as ->; apply color_xy_key_error in Hb as [->| ->];
      apply (bool_decide_unpack _); reflexivity].
  destruct (MDItemColorXY.init side_data "white_point") as [w|e] eqn:Hw;
    [|cbn in H; injection H as ->; apply color_xy_key_error in Hw as [->| ->];
      apply (bool_decide_unpack _); reflexivity].
  cbn [mbind result_bind] in H.
  destruct (getitem side_data "min_luminance" ≫= MDItem.init) as [lmin|e] eqn:Hmin;
    [|cbn in H; injection H as ->; apply getitem_init_key_error in Hmin as ->;
      apply (bool_decide_unpack _); reflexivity].
  destruct (getitem side_data "max_luminance" ≫= MDItem.init) as [lmax|e] eqn:Hmax;
    [|cbn in H; injection H as ->; apply getitem_init_key_error in Hmax as ->;
      apply (bool_decide_unpack _); reflexivity].
  done.
Qed.

Lemma expand_to_ratio_not_key_error (self : MDItem.t) (target : Z) (e : pyexn) :
  MDItem.expand_to_ratio self target = Raise e → ¬ is_key_error e.
Proof.
  unfold MDItem.expand_to_ratio, PyFloat.int_mul. intros H. bind_cases H.
  - destruct (PyFloat.mul _ _); cbn in H; try done; injection H as <-; by intros ?.
  - unfold PyFloat.of_int in *. destruct (binary_normalize _ _ _ _ _); try done.
    match goal with E : Raise _ = Raise _ |- _ => injection E as <-; by intros ? end.
  - match goal with E : PyFloat.int_true_divide _ _ = Raise _ |- _ =>
      by destruct (int_true_divide_raises _ _ _ E) as [[-> _]|[-> _]]; intros ? end.
Qed.

Lemma round4_not_key_error (self : MDItem.t) (e : pyexn) :
  MDItem.round4 self = Raise e → ¬ is_key_error e.
Proof.
  unfold MDItem.round4, PyFloat.round. intros H. bind_cases H.
  destruct (MDItem.float_value self); try done.
  destruct (_ =? 0); [done|]. destruct (SFdiv _ _ _ _); try done.
  match goal with E : Raise _ = Raise _ |- _ => injection E as <-; by intros ? end.
Qed.

Lemma to_x265_params_not_key_error (record : MasteringDisplayData.t) (e : pyexn) :
  MasteringDisplayData.to_x265_params record = Raise e → ¬ is_key_error e.
Proof.
  unfold MasteringDisplayData.to_x265_params, MDItemColorXY.to_x265. intros H.
  bind_cases H; by eapply expand_to_ratio_not_key_error.
Qed.

Lemma to_libsvtav1_params_not_key_error (record : MasteringDisplayData.t) (e : pyexn) :
  MasteringDisplayData.to_libsvtav1_params record = Raise e → ¬ is_key_error e.
Proof.
  unfold MasteringDisplayData.to_libsvtav1_params, MDItemColorXY.to_libsvtav1. intros H.
  bind_cases H; by eapply round4_not_key_error.
Qed.

Lemma side_data_fragments_key_error (side_data : gmap string value) (k : string) :
  side_data_fragments side_data = Raise (KeyError k) → k ∈ side_data_keys.
Proof.
  unfold side_data_fragments. intros H.
  destruct (getitem side_data "side_data_type") as [t|e] eqn:Ht.
  2:{ cbn in H. injection H as ->. apply getitem_key_error in Ht as [= ->].
      apply (bool_decide_unpack _). reflexivity. }
  cbn [mbind result_bind] in H. repeat case_decide; [| |done].
  - destruct (MasteringDisplayData.init side_data) as [record|e] eqn:Hinit.
    + cbn [mbind result_bind] in H.
      destruct (MasteringDisplayData.to_x265_params record) as [a|e] eqn:Ha.
      * cbn [mbind result_bind] in H.
        destruct (MasteringDisplayData.to_libsvtav1_params record) as [c|e] eqn:Hc; [done|].
        cbn in H. injection H as ->. by apply to_libsvtav1_params_not_key_error in Hc.
      * cbn in H. injection H as ->. by apply to_x265_params_not_key_error in Ha.
    + cbn in H. injection H as ->. apply mastering_display_key_error in Hinit.
      unfold side_data_keys. do 2 right. apply elem_of_app. by left.
  - unfold ContentLightLevelData.init in H.
    destruct (getitem side_data "max_content") as [a|e] eqn:Ha.
    + destruct (getitem side_data "max_average") as [b|e] eqn:Hb; [done|].
      cbn in H. injection H as ->. apply getitem_key_error in Hb as [= ->].
      apply (bool_decide_unpack _). reflexivity.
    + cbn in H. injection H as ->. apply getitem_key_error in Ha as [= ->].
      apply (bool_decide_unpack _). reflexivity.
Qed.

Lemma mapM_Raise {A B} (f : A → result B) (l : list A) (e : pyexn) :
  mapM f l = Raise e → ∃ x, x ∈ l ∧ f x = Raise e.
Proof.
  induction l as [|x l IH]; [done|]. cbn [mapM].
  destruct (f x) as [y|e'] eqn:Hx.
  - cbn. fold (mapM f l). destruct (mapM f l) as [k|e'] eqn:Hl; [done|].
    cbn. intros [= ->]. destruct (IH eq_refl) as (x' & ? & ?). exists x'. split; [by right|done].
  - cbn. intros [= ->]. exists x. split; [by left|done].
Qed.

(** X16. A [KeyError] out of [parse_frame_data] names
    [side_data_list], [side_data_type] or a member of a recognised block,
    never one of the four colour fields: the validation makes the colour
    lookups safe. *)
Theorem key_errors_name_side_data (frame_data : frame) (k : string) :
  outcome (parse_frame_data frame_data) = Raise (KeyError k) →
  k ∈ side_data_keys ∧ k ∉ color_params.
Proof.
  intros H.
  assert (k ∈ side_data_keys) as Hk.
  { destruct (missing_params frame_data) as [|k' ks] eqn:Hmissing.
    - apply missing_params_nil in Hmissing as [color_data Hinit].
      destruct (side_data_list frame_data) as [l|] eqn:Hlist.
      + rewrite (parse_frame_data_run _ _ _ Hinit Hlist) in H. cbv zeta in H.
        rewrite for_each_outcome in H.
        destruct (mapM side_data_fragments l) as [frs|e] eqn:Hl; [done|].
        cbn in H. injection H as ->.
        apply mapM_Raise in Hl as (sd & _ & Hsd).
        by apply side_data_fragments_key_error in Hsd.
      + rewrite (parse_frame_data_present _ _ Hinit), Hlist in H.
        cbn in H. injection H as <-. apply (bool_decide_unpack _). reflexivity.
    - rewrite parse_frame_data_missing in H by (by rewrite Hmissing). done. }
  split; [done|]. intros Hc. revert Hk. unfold color_params in Hc.
  repeat (apply elem_of_cons in Hc as [->|Hc];
          [apply (bool_decide_unpack _); reflexivity|]).
  by apply elem_of_nil in Hc.
Qed.

Lemma key_errors_name_side_data_witness :
  "side_data_list" ∈ side_data_keys ∧ "side_data_list" ∉ color_params.
Proof.
  apply (key_errors_name_side_data (sample_frame None)). reflexivity.
Defined.

(** ** The separator before the first fragment *)

Lemma appended_head (proj : string * string → string)
    (fragments : list (option (string * string))) :
  (∃ f, Some f ∈ fragments) → ∃ tail, appended proj fragments = ":" +:+ tail.
Proof.
  intros [f Hf]. induction fragments as [|[g|] rest IH]; cbn [appended].
  - by apply elem_of_nil in Hf.
  - eauto.
  - apply IH. by apply elem_of_cons in Hf as [|].
Qed.

(** X17. When the colour space has no x265 name, the x265 string of
    the report starts with the ":" meant to join it to the first
    side-data fragment. *)
Theorem unmapped_color_space_leading_separator (frame_data : frame)
    (color_data : ColorData.t) (l : list (gmap string value))
    (fragments : list (option (string * string))) :
  ColorData.init frame_data = Ok color_data →
  side_data_list frame_data = Some l →
  Forall2 (λ sd fr, side_data_fragments sd = Ok fr) l fragments →
  ColorData.to_x265_params color_data = "" →
  (∃ f, Some f ∈ fragments) →
  ∃ tail,
    rev (stdout (parse_frame_data frame_data)) !! 3%nat =
      Some ("x265 params: :" +:+ tail).
Proof.
  intros Hinit Hl Hfr Hempty Hsome.
  rewrite (parse_frame_data_run _ _ _ Hinit Hl). cbv zeta.
  rewrite for_each_outcome, (mapM_Forall2_Ok _ _ _ Hfr). cbn.
  rewrite foldl_extend. cbn. rewrite rev_app_distr. cbn.
  rewrite Hempty. destruct (appended_head fst fragments Hsome) as [tail ->].
  by exists (tail +:+ PyStr.NL).
Qed.

Lemma unmapped_color_space_leading_separator_witness :
  ∃ tail,
    rev (stdout (parse_frame_data
                   {| fields := list_to_map [("pix_fmt", "yuv420p10le"); ("color_space", "ipt-c2");
                                             ("color_primaries", "bt2020");
                                             ("color_transfer", "smpte2084")];
                      side_data_list := Some [sample_content_light 1000 400] |}))
      !! 3%nat = Some ("x265 params: :" +:+ tail).
Proof.
  eapply (unmapped_color_space_leading_separator _ _ [sample_content_light 1000 400]
            [Some ("max-cll=1000,400", "content-light=1000,400")]).
  - vm_compute. reflexivity.
  - reflexivity.
  - repeat constructor.
  - reflexivity.
  - eexists. left.
Defined.

(** ** Content-light entries and the constructor of [ColorData] *)

(** X18. An entry tagged "Content light level metadata" contributes
    max-cll=<max_content>,<max_average> and
    content-light=<max_content>,<max_average>, its two members written as
    they are, and raises [KeyError] for max_content, or else for
    max_average, when one is absent. *)
Theorem content_light_entry (side_data : gmap string value) :
  side_data !! "side_data_type" = Some (VStr "Content light level metadata") →
  side_data_fragments side_data =
    match side_data !! "max_content", side_data !! "max_average" with
    | Some max_content, Some max_average =>
        Ok (Some ("max-cll=" +:+ format_value max_content +:+ "," +:+
                  format_value max_average,
                  "content-light=" +:+ format_value max_content +:+ "," +:+
                  format_value max_average))
    | None, _ => Raise (KeyError "max_content")
    | Some _, None => Raise (KeyError "max_average")
    end.
Proof.
  intros Htag. unfold side_data_fragments, getitem. rewrite Htag.
  cbn [mbind result_bind]. rewrite decide_False by done. rewrite decide_True by done.
  unfold ContentLightLevelData.init, getitem.
  destruct (side_data !! "max_content"); [|done].
  by destruct (side_data !! "max_average").
Qed.

Lemma content_light_entry_witness :
  side_data_fragments (sample_content_light 1000 400) =
    Ok (Some ("max-cll=1000,400", "content-light=1000,400")) ∧
  side_data_fragments (delete "max_average" (sample_content_light 1000 400)) =
    Raise (KeyError "max_average").
Proof.
  split.
  - rewrite content_light_entry by reflexivity. reflexivity.
  - rewrite content_light_entry by reflexivity. reflexivity.
Defined.

(** X19. On a frame the validation refuses, the constructor of
    [ColorData] would raise [KeyError] for the first missing field, in the
    order pix_fmt, color_space, color_primaries, color_transfer: the first
    name of the validation's report. *)
Theorem color_data_first_missing (frame_data : frame) (k : string) (ks : list string) :
  missing_params frame_data = k :: ks →
  ColorData.init frame_data = Raise (KeyError k).
Proof.
  unfold missing_params, color_params, ColorData.init, getitem.
  rewrite !filter_cons, filter_nil.
  destruct (fields frame_data !! "pix_fmt"), (fields frame_data !! "color_space"),
    (fields frame_data !! "color_primaries"), (fields frame_data !! "color_transfer");
    repeat case_decide; cbn; try done; by intros [= <- <-].
Qed.

Lemma color_data_first_missing_witness :
  ColorData.init
    {| fields := list_to_map [("pix_fmt", "yuv420p10le"); ("color_primaries", "bt2020")];
       side_data_list := None |} = Raise (KeyError "color_space").
Proof.
  apply (color_data_first_missing _ "color_space" ["color_transfer"]). reflexivity.
Defined.
